(** * Verification of [process_gpt_response] (src/app.py)

    The response normaliser of the OCT form tool takes the decoded JSON
    answer of the vision model and standardises it for the form.  This
    development embeds the function twice:

    - [Pure]: value level, a decoded JSON value is a tree, Python
      exceptions are results in an error monad;
    - [Heap]: object level, dicts live in a store and are shared by
      reference, which is what the frame properties are about.  *)

From Stdlib Require Import ZArith NArith Ascii String List Bool Lia.
From stdpp Require Import base option list gmap fin_maps.

Set Default Proof Using "Type".
Set Warnings "-register-all".
Open Scope list_scope.

(** ** Python strings

    A Python [str] is a sequence of Unicode code points.  The case
    mappings are those of CPython for Basic Latin and the Latin-1
    Supplement (U+0000 to U+00FF), which holds every label and token of
    the program; code points above U+00FF are left as they are. *)

Module PyStr.

Abbreviation codepoint := N (only parsing).
Abbreviation pystr := (list N) (only parsing).

(** Source literals are written as UTF-8 text and decoded here (one- and
    two-byte sequences are all the program's literals need). *)
Fixpoint decode (bs : list N) : list N :=
  match bs with
  | [] => []
  | b :: rest =>
      if (b <? 192)%N then b :: decode rest
      else match rest with
           | c :: rest' => ((b - 192) * 64 + (c - 128))%N :: decode rest'
           | [] => [b]
           end
  end.

Definition py (s : string) : list N :=
  decode (map N_of_ascii (list_ascii_of_string s)).
Arguments py : simpl never.

(** [str.lower] on one code point: A-Z, and the capitals from U+00C0 to
    U+00DE except the multiplication sign U+00D7. *)
Definition lower_cp (c : N) : N :=
  if ((65 <=? c) && (c <=? 90))%N then (c + 32)%N
  else if ((192 <=? c) && (c <=? 222) && negb (c =? 215))%N then (c + 32)%N
  else c.

Definition lower (s : list N) : list N := map lower_cp s.

(** Title case of the first character, as [str.capitalize] applies it:
    a-z, the small letters from U+00E0 to U+00FE except the division sign
    U+00F7; sharp s becomes "Ss", y with diaeresis U+0178 and the micro
    sign the Greek capital mu. *)
Definition title_cp (c : N) : list N :=
  if ((97 <=? c) && (c <=? 122))%N then [(c - 32)%N]
  else if ((224 <=? c) && (c <=? 254) && negb (c =? 247))%N then [(c - 32)%N]
  else if (c =? 223)%N then [83; 115]%N
  else if (c =? 255)%N then [376]%N
  else if (c =? 181)%N then [924]%N
  else [c].

(** [str.capitalize]: first character in title case, the rest lower-cased. *)
Definition capitalize (s : list N) : list N :=
  match s with
  | [] => []
  | c :: rest => title_cp c ++ lower rest
  end.

(** [str.strip]: the spec speaks of trimming; the source never calls it.
    White space here is the ASCII one and the no-break space. *)
Definition is_space (c : N) : bool :=
  ((c =? 32) || ((9 <=? c) && (c <=? 13)) || ((28 <=? c) && (c <=? 31))
   || (c =? 133) || (c =? 160))%N.

Fixpoint lstrip (s : list N) : list N :=
  match s with
  | c :: rest => if is_space c then lstrip rest else s
  | [] => []
  end.

Definition strip (s : list N) : list N := rev (lstrip (rev (lstrip s))).

Fixpoint starts_with (p s : list N) : bool :=
  match p, s with
  | [], _ => true
  | _ :: _, [] => false
  | a :: p', b :: s' => (a =? b)%N && starts_with p' s'
  end.

(** [p in s] for two strings: [p] occurs in [s] as a substring. *)
Fixpoint contains (p s : list N) : bool :=
  starts_with p s ||
  match s with
  | [] => false
  | _ :: s' => contains p s'
  end.

Definition str_eqb (a b : list N) : bool := bool_decide (a = b).

(** The shape of the status labels: a capital A or P, then characters
    that [lower] leaves alone. *)
Definition label_like (l : list N) : Prop :=
  exists l0 rest, l = l0 :: rest /\ (l0 = 65%N \/ l0 = 80%N) /\ lower rest = rest.

End PyStr.
Export PyStr.

(** ** Decoded JSON values *)

Inductive json : Type :=
  | JNull
  | JBool (b : bool)
  | JInt (n : Z)
  | JFloat (mantissa exponent : Z)
  | JStr (s : list N)
  | JArr (l : list json)
  | JObj (m : gmap (list N) json).

Definition is_dict (v : json) : bool :=
  match v with JObj _ => true | _ => false end.

Definition is_str (v : json) : bool :=
  match v with JStr _ => true | _ => false end.

(** [v == s] for a string [s] *)
Definition eq_str (s : list N) (v : json) : bool :=
  match v with JStr t => str_eqb s t | _ => false end.

(** ** Exceptions *)

Inductive exn := TypeError | KeyError | AttributeError | RecursionError.

Inductive res (A : Type) : Type :=
  | Ok (a : A)
  | Raise (e : exn).
Arguments Ok {A} a.
Arguments Raise {A} e.

Definition bind {A B} (c : res A) (f : A -> res B) : res B :=
  match c with
  | Ok a => f a
  | Raise e => Raise e
  end.

Declare Scope py_scope.
Delimit Scope py_scope with py.
Notation "x <- c ;; k" := (bind c (fun x => k))
  (at level 100, c at next level, right associativity) : py_scope.
Notation "c ;;; k" := (bind c (fun _ => k))
  (at level 100, right associativity) : py_scope.
Open Scope py_scope.


(** ** The operations of Python the function uses, on JSON values *)

Definition has_key (m : gmap (list N) json) (k : pystr) : bool :=
  match m !! k with Some _ => true | None => false end.

(** [k in c] for a string [k]: key of a dict, element of a list, substring
    of a string; [None], booleans and numbers are not iterable. *)
Definition py_in (k : pystr) (c : json) : res bool :=
  match c with
  | JObj m => Ok (has_key m k)
  | JArr l => Ok (existsb (eq_str k) l)
  | JStr s => Ok (contains k s)
  | _ => Raise TypeError
  end.

(** [c[k]] for a string [k]: only a dict can be subscripted by a string. *)
Definition py_getitem (c : json) (k : pystr) : res json :=
  match c with
  | JObj m => match m !! k with Some v => Ok v | None => Raise KeyError end
  | _ => Raise TypeError
  end.

(** [c[k] = v] for a string [k] *)
Definition py_setitem (c : json) (k : pystr) (v : json) : res json :=
  match c with
  | JObj m => Ok (JObj (<[k := v]> m))
  | _ => Raise TypeError
  end.

(** [v.lower()] and [v.capitalize()]: methods of [str] only *)
Definition py_lower (v : json) : res (list N) :=
  match v with JStr s => Ok (lower s) | _ => Raise AttributeError end.

Definition py_capitalize (v : json) : res (list N) :=
  match v with JStr s => Ok (capitalize s) | _ => Raise AttributeError end.

(** [s in [a, b]] *)
Definition in_labels (s : pystr) (labels : list (list N)) : bool :=
  existsb (str_eqb s) labels.

(** [d.get(k, default)] on a table of strings *)
Fixpoint table_get (table : list (list N * list N)) (k default : pystr) : list N :=
  match table with
  | [] => default
  | (k', v) :: rest => if str_eqb k k' then v else table_get rest k default
  end.

Definition dict (items : list (list N * json)) : json :=
  JObj (list_to_map items).

(** A [for] loop whose body may raise *)
Fixpoint for_each {A S} (xs : list A) (body : S -> A -> res S) (s : S) : res S :=
  match xs with
  | [] => Ok s
  | x :: rest => s' <- body s x ;; for_each rest body s'
  end.

(** ** [process_gpt_response], value level *)

Module Pure.

(** One eye of [default_structure], in the order of the literal. *)
Definition default_eye_items : list (list N * json) :=
  [ (py "dril", dict [ (py "status", JStr (py "Absente"));
                       (py "extent", JStr (py "")) ]);
    (py "oedeme", dict [ (py "status", JStr (py "Absent"));
                         (py "nb_logette", JStr (py ""));
                         (py "taille", JStr (py ""));
                         (py "localisation", JStr (py "")) ]);
    (py "mle", JStr (py "Continue"));
    (py "ze", JStr (py "Continue"));
    (py "points_hyperreflectifs", dict [ (py "status", JStr (py "Absents"));
                                         (py "nombre", JStr (py ""));
                                         (py "localisation", JStr (py "")) ]);
    (py "epaisseur_retinienne", dict [ (py "central", JStr (py ""));
                                       (py "superieur", JStr (py ""));
                                       (py "inferieur", JStr (py ""));
                                       (py "nasal", JStr (py ""));
                                       (py "temporal", JStr (py "")) ]);
    (py "briding", JStr (py "Absent"));
    (py "decollement", JStr (py "Absent")) ].

Definition default_eye : json := dict default_eye_items.

(** [right_eye] is a deep copy of [left_eye]: the same value. *)
Definition default_structure : json :=
  dict [ (py "left_eye", default_eye); (py "right_eye", default_eye) ].

Definition taille_mapping : list (list N * list N) :=
  [ (py "small", py "petite");
    (py "medium", py "grande");
    (py "large", py "volumineuse");
    (py "petit", py "petite");
    (py "grand", py "grande");
    (py "<100", py "petite");
    (py "100-200", py "grande");
    (py ">200", py "volumineuse") ].

(** The status lines shared by the dril, oedeme and points blocks:
    [d["status"] = d["status"].capitalize()], then, when that is not one
    of the two labels, the label chosen by the token "present". *)
Definition standardize_status (present absent : pystr) (d : json) : res json :=
  raw <- py_getitem d (py "status") ;;
  status <- py_capitalize raw ;;
  d <- py_setitem d (py "status") (JStr status) ;;
  if negb (in_labels status [present; absent]) then
    py_setitem d (py "status")
      (JStr (if contains (py "present") (lower status) then present else absent))
  else Ok d.

Definition standardize_dril (eye_data : json) : res json :=
  has <- py_in (py "dril") eye_data ;;
  if has then
    dril <- py_getitem eye_data (py "dril") ;;
    if is_dict dril then
      dril <- standardize_status (py "Présente") (py "Absente") dril ;;
      py_setitem eye_data (py "dril") dril
    else Ok eye_data
  else Ok eye_data.

Definition standardize_taille (oedeme : json) : res json :=
  has <- py_in (py "taille") oedeme ;;
  if has then
    raw <- py_getitem oedeme (py "taille") ;;
    taille <- py_lower raw ;;
    py_setitem oedeme (py "taille") (JStr (table_get taille_mapping taille taille))
  else Ok oedeme.

Definition standardize_oedeme (eye_data : json) : res json :=
  has <- py_in (py "oedeme") eye_data ;;
  if has then
    oedeme <- py_getitem eye_data (py "oedeme") ;;
    if is_dict oedeme then
      oedeme <- standardize_status (py "Présent") (py "Absent") oedeme ;;
      oedeme <- standardize_taille oedeme ;;
      py_setitem eye_data (py "oedeme") oedeme
    else Ok eye_data
  else Ok eye_data.

(** Body of [for field in ["mle", "ze"]] *)
Definition standardize_membrane (eye_data : json) (field : pystr) : res json :=
  has <- py_in field eye_data ;;
  if has then
    value <- py_getitem eye_data field ;;
    low <- py_lower value ;;
    if contains (py "continu") low then
      py_setitem eye_data field (JStr (py "Continue"))
    else if contains (py "partiel") low then
      py_setitem eye_data field (JStr (py "Partiellement interrompue"))
    else if contains (py "complet") low then
      py_setitem eye_data field (JStr (py "Complètement interrompue"))
    else Ok eye_data
  else Ok eye_data.

Definition standardize_points (eye_data : json) : res json :=
  has <- py_in (py "points_hyperreflectifs") eye_data ;;
  if has then
    points <- py_getitem eye_data (py "points_hyperreflectifs") ;;
    if is_dict points then
      points <- standardize_status (py "Présents") (py "Absents") points ;;
      py_setitem eye_data (py "points_hyperreflectifs") points
    else Ok eye_data
  else Ok eye_data.

Definition sectors (central : json) : json :=
  dict [ (py "central", central);
         (py "superieur", JStr (py ""));
         (py "inferieur", JStr (py ""));
         (py "nasal", JStr (py ""));
         (py "temporal", JStr (py "")) ].

Definition format_epaisseur (eye_data : json) : res json :=
  has <- py_in (py "epaisseur_retinienne") eye_data ;;
  if has then
    value <- py_getitem eye_data (py "epaisseur_retinienne") ;;
    if is_str value then
      py_setitem eye_data (py "epaisseur_retinienne") (sectors value)
    else Ok eye_data
  else Ok eye_data.

(** Body of [for key, default_value in default_structure[eye].items()] *)
Definition add_missing (eye_data : json) (item : list N * json) : res json :=
  has <- py_in (fst item) eye_data ;;
  if negb has then py_setitem eye_data (fst item) (snd item)
  else Ok eye_data.

(** Everything the loop does to [eye_data = response[eye]]. *)
Definition standardize_eye (eye_data : json) : res json :=
  eye_data <- standardize_dril eye_data ;;
  eye_data <- standardize_oedeme eye_data ;;
  eye_data <- for_each [py "mle"; py "ze"] standardize_membrane eye_data ;;
  eye_data <- standardize_points eye_data ;;
  eye_data <- format_epaisseur eye_data ;;
  for_each default_eye_items add_missing eye_data.

(** Body of [for eye in ["left_eye", "right_eye"]].  [eye_data] is the
    object held by [response]; at value level its changes are written
    back into [response]. *)
Definition process_eye (response : json) (eye : pystr) : res json :=
  has <- py_in eye response ;;
  if negb has then
    default_value <- py_getitem default_structure eye ;;
    py_setitem response eye default_value
  else
    eye_data <- py_getitem response eye ;;
    eye_data <- standardize_eye eye_data ;;
    py_setitem response eye eye_data.

(** The two [json.dumps] traces cannot raise on a decoded JSON value; the
    trace of the error branch evaluates [response['error']]. *)
Definition process_gpt_response (response : json) : res json :=
  has_error <- py_in (py "error") response ;;
  if has_error then
    _ <- py_getitem response (py "error") ;;
    Ok default_structure
  else
    for_each [py "left_eye"; py "right_eye"] process_eye response.

End Pure.



(** ** [process_gpt_response], object level

    Python dicts and lists are objects in a store and values hold
    references to them: [response[eye]] and [eye_data] are one object,
    and an assignment to a key changes that object for every holder of
    a reference.  A dict keeps its keys in insertion order. *)

Module Heap.

Inductive val : Type :=
  | VNull
  | VBool (b : bool)
  | VInt (n : Z)
  | VFloat (mantissa exponent : Z)
  | VStr (s : list N)
  | VRef (l : nat).

Inductive obj : Type :=
  | ODict (items : list (list N * val))
  | OList (xs : list val).

(** The store is the list of the objects allocated so far; a reference is
    an index in it.  [Stuck] is the outcome of following a reference to
    no object, which no run of Python does. *)
Inductive outcome (A : Type) : Type :=
  | Ret (a : A)
  | Exn (e : exn)
  | Stuck.
Arguments Ret {A} a.
Arguments Exn {A} e.
Arguments Stuck {A}.

Definition M (A : Type) : Type := list obj -> outcome A * list obj.

Definition ret {A} (a : A) : M A := fun h => (Ret a, h).
Definition raise {A} (e : exn) : M A := fun h => (Exn e, h).

(** An exception leaves the store as the statements before it made it. *)
Definition bind {A B} (c : M A) (f : A -> M B) : M B :=
  fun h =>
    match c h with
    | (Ret a, h') => f a h'
    | (Exn e, h') => (Exn e, h')
    | (Stuck, h') => (Stuck, h')
    end.

Declare Scope heap_scope.
Delimit Scope heap_scope with heap.
Notation "x <- c ;; k" := (bind c (fun x => k))
  (at level 100, c at next level, right associativity) : heap_scope.
Notation "c ;;; k" := (bind c (fun _ => k))
  (at level 100, right associativity) : heap_scope.
Open Scope heap_scope.

Definition read (l : nat) : M obj :=
  fun h => match h !! l with Some o => (Ret o, h) | None => (Stuck, h) end.

Definition write (l : nat) (o : obj) : M unit :=
  fun h => if l <? length h then (Ret tt, <[l := o]> h) else (Stuck, h).

Definition alloc (o : obj) : M val :=
  fun h => (Ret (VRef (length h)), h ++ [o]).

Fixpoint assoc (k : pystr) (items : list (list N * val)) : option val :=
  match items with
  | [] => None
  | (k', v) :: rest => if str_eqb k k' then Some v else assoc k rest
  end.

(** [d[k] = v]: an existing key keeps its place, a new key goes last. *)
Fixpoint assoc_set (k : pystr) (v : val) (items : list (list N * val))
    : list (list N * val) :=
  match items with
  | [] => [(k, v)]
  | (k', v') :: rest =>
      if str_eqb k k' then (k, v) :: rest else (k', v') :: assoc_set k v rest
  end.

Definition eq_str (s : pystr) (v : val) : bool :=
  match v with VStr t => str_eqb s t | _ => false end.

Definition py_in (k : pystr) (c : val) : M bool :=
  match c with
  | VRef l =>
      o <- read l ;;
      match o with
      | ODict items => ret (match assoc k items with Some _ => true | None => false end)
      | OList xs => ret (existsb (eq_str k) xs)
      end
  | VStr s => ret (contains k s)
  | _ => raise TypeError
  end.

Definition py_getitem (c : val) (k : pystr) : M val :=
  match c with
  | VRef l =>
      o <- read l ;;
      match o with
      | ODict items =>
          match assoc k items with Some v => ret v | None => raise KeyError end
      | OList _ => raise TypeError
      end
  | _ => raise TypeError
  end.

Definition py_setitem (c : val) (k : pystr) (v : val) : M unit :=
  match c with
  | VRef l =>
      o <- read l ;;
      match o with
      | ODict items => write l (ODict (assoc_set k v items))
      | OList _ => raise TypeError
      end
  | _ => raise TypeError
  end.

Definition is_dict (c : val) : M bool :=
  match c with
  | VRef l => o <- read l ;; ret (match o with ODict _ => true | OList _ => false end)
  | _ => ret false
  end.

Definition is_str (c : val) : bool :=
  match c with VStr _ => true | _ => false end.

Definition py_lower (v : val) : M (list N) :=
  match v with VStr s => ret (lower s) | _ => raise AttributeError end.

Definition py_capitalize (v : val) : M (list N) :=
  match v with VStr s => ret (capitalize s) | _ => raise AttributeError end.

(** [d.items()] *)
Definition py_items (c : val) : M (list (list N * val)) :=
  match c with
  | VRef l =>
      o <- read l ;;
      match o with
      | ODict items => ret items
      | OList _ => raise AttributeError
      end
  | _ => raise AttributeError
  end.

Fixpoint for_each {A} (xs : list A) (body : A -> M unit) : M unit :=
  match xs with
  | [] => ret tt
  | x :: rest => body x ;;; for_each rest body
  end.

Fixpoint map_each {A B} (xs : list A) (f : A -> M B) : M (list B) :=
  match xs with
  | [] => ret []
  | x :: rest => y <- f x ;; ys <- map_each rest f ;; ret (y :: ys)
  end.

(** [copy.deepcopy] on a value without sharing: strings and numbers are
    returned as they are, a dict or a list is copied with its members.
    [depth] bounds the nesting, as the recursion limit of the interpreter
    does. *)
Fixpoint deepcopy (depth : nat) (v : val) : M val :=
  match v with
  | VRef l =>
      match depth with
      | 0 => raise RecursionError
      | S depth' =>
          o <- read l ;;
          match o with
          | ODict items =>
              items' <- map_each items
                          (fun kv => v' <- deepcopy depth' (snd kv) ;;
                                     ret (fst kv, v')) ;;
              alloc (ODict items')
          | OList xs =>
              xs' <- map_each xs (deepcopy depth') ;;
              alloc (OList xs')
          end
      end
  | _ => ret v
  end.

(** The dict literal under ["left_eye"]: the four inner dicts, then the
    eye. *)
Definition eye_literal : M val :=
  dril <- alloc (ODict [ (py "status", VStr (py "Absente"));
                         (py "extent", VStr (py "")) ]) ;;
  oedeme <- alloc (ODict [ (py "status", VStr (py "Absent"));
                           (py "nb_logette", VStr (py ""));
                           (py "taille", VStr (py ""));
                           (py "localisation", VStr (py "")) ]) ;;
  points <- alloc (ODict [ (py "status", VStr (py "Absents"));
                           (py "nombre", VStr (py ""));
                           (py "localisation", VStr (py "")) ]) ;;
  epaisseur <- alloc (ODict [ (py "central", VStr (py ""));
                              (py "superieur", VStr (py ""));
                              (py "inferieur", VStr (py ""));
                              (py "nasal", VStr (py ""));
                              (py "temporal", VStr (py "")) ]) ;;
  alloc (ODict [ (py "dril", dril);
                 (py "oedeme", oedeme);
                 (py "mle", VStr (py "Continue"));
                 (py "ze", VStr (py "Continue"));
                 (py "points_hyperreflectifs", points);
                 (py "epaisseur_retinienne", epaisseur);
                 (py "briding", VStr (py "Absent"));
                 (py "decollement", VStr (py "Absent")) ]).

(** [default_structure = {...}] and the deep copy into ["right_eye"];
    the literal is two dicts deep. *)
Definition build_default_structure : M val :=
  left_eye <- eye_literal ;;
  right_eye <- alloc (ODict []) ;;
  default_structure <- alloc (ODict [ (py "left_eye", left_eye);
                                      (py "right_eye", right_eye) ]) ;;
  left_eye <- py_getitem default_structure (py "left_eye") ;;
  copied <- deepcopy 3 left_eye ;;
  py_setitem default_structure (py "right_eye") copied ;;;
  ret default_structure.

Definition standardize_status (present absent : pystr) (d : val) : M unit :=
  raw <- py_getitem d (py "status") ;;
  status <- py_capitalize raw ;;
  py_setitem d (py "status") (VStr status) ;;;
  status <- py_getitem d (py "status") ;;
  if negb (existsb (fun label => eq_str label status) [present; absent]) then
    low <- py_lower status ;;
    py_setitem d (py "status")
      (VStr (if contains (py "present") low then present else absent))
  else ret tt.

Definition standardize_dril (eye_data : val) : M unit :=
  has <- py_in (py "dril") eye_data ;;
  if has then
    dril <- py_getitem eye_data (py "dril") ;;
    isd <- is_dict dril ;;
    if isd then standardize_status (py "Présente") (py "Absente") dril
    else ret tt
  else ret tt.

Definition taille_get (taille : pystr) : list N :=
  table_get Pure.taille_mapping taille taille.

Definition standardize_oedeme (eye_data : val) : M unit :=
  has <- py_in (py "oedeme") eye_data ;;
  if has then
    oedeme <- py_getitem eye_data (py "oedeme") ;;
    isd <- is_dict oedeme ;;
    if isd then
      standardize_status (py "Présent") (py "Absent") oedeme ;;;
      has_taille <- py_in (py "taille") oedeme ;;
      if has_taille then
        raw <- py_getitem oedeme (py "taille") ;;
        taille <- py_lower raw ;;
        py_setitem oedeme (py "taille") (VStr (taille_get taille))
      else ret tt
    else ret tt
  else ret tt.

Definition standardize_membrane (eye_data : val) (field : pystr) : M unit :=
  has <- py_in field eye_data ;;
  if has then
    value <- py_getitem eye_data field ;;
    low <- py_lower value ;;
    if contains (py "continu") low then
      py_setitem eye_data field (VStr (py "Continue"))
    else if contains (py "partiel") low then
      py_setitem eye_data field (VStr (py "Partiellement interrompue"))
    else if contains (py "complet") low then
      py_setitem eye_data field (VStr (py "Complètement interrompue"))
    else ret tt
  else ret tt.

Definition standardize_points (eye_data : val) : M unit :=
  has <- py_in (py "points_hyperreflectifs") eye_data ;;
  if has then
    points <- py_getitem eye_data (py "points_hyperreflectifs") ;;
    isd <- is_dict points ;;
    if isd then standardize_status (py "Présents") (py "Absents") points
    else ret tt
  else ret tt.

Definition format_epaisseur (eye_data : val) : M unit :=
  has <- py_in (py "epaisseur_retinienne") eye_data ;;
  if has then
    value <- py_getitem eye_data (py "epaisseur_retinienne") ;;
    if is_str value then
      central <- py_getitem eye_data (py "epaisseur_retinienne") ;;
      sectors <- alloc (ODict [ (py "central", central);
                                (py "superieur", VStr (py ""));
                                (py "inferieur", VStr (py ""));
                                (py "nasal", VStr (py ""));
                                (py "temporal", VStr (py "")) ]) ;;
      py_setitem eye_data (py "epaisseur_retinienne") sectors
    else ret tt
  else ret tt.

Definition add_missing (eye_data : val) (item : list N * val) : M unit :=
  has <- py_in (fst item) eye_data ;;
  if negb has then py_setitem eye_data (fst item) (snd item)
  else ret tt.

Definition process_eye (default_structure response : val) (eye : pystr) : M unit :=
  has <- py_in eye response ;;
  if negb has then
    default_value <- py_getitem default_structure eye ;;
    py_setitem response eye default_value
  else
    eye_data <- py_getitem response eye ;;
    standardize_dril eye_data ;;;
    standardize_oedeme eye_data ;;;
    for_each [py "mle"; py "ze"] (standardize_membrane eye_data) ;;;
    standardize_points eye_data ;;;
    format_epaisseur eye_data ;;;
    default_eye <- py_getitem default_structure eye ;;
    items <- py_items default_eye ;;
    for_each items (add_missing eye_data).

Definition process_gpt_response (response : val) : M val :=
  default_structure <- build_default_structure ;;
  has_error <- py_in (py "error") response ;;
  if has_error then
    _ <- py_getitem response (py "error") ;;
    ret default_structure
  else
    for_each [py "left_eye"; py "right_eye"]
      (process_eye default_structure response) ;;;
    ret response.

(** Reading a value of the store back as a JSON tree, down to [depth]. *)
Fixpoint reify (depth : nat) (h : list obj) (v : val) : option json :=
  match v with
  | VNull => Some JNull
  | VBool b => Some (JBool b)
  | VInt n => Some (JInt n)
  | VFloat m e => Some (JFloat m e)
  | VStr s => Some (JStr s)
  | VRef l =>
      match depth with
      | 0 => None
      | S depth' =>
          match h !! l with
          | Some (ODict items) =>
              items' ← mapM (fun kv => v' ← reify depth' h (snd kv);
                                       Some (fst kv, v')) items;
              Some (JObj (list_to_map items'))
          | Some (OList xs) =>
              xs' ← mapM (reify depth' h) xs;
              Some (JArr xs')
          | None => None
          end
      end
  end.

Close Scope heap_scope.

End Heap.

(** ** The rest of the application (src/app.py)

    [encode_image_contents], the text handling of [analyze_with_gpt],
    [toggle_oedeme_details] and the callback [analyze_image], which runs
    the three and flattens the outcome of [process_gpt_response] into
    the values of the form. *)

Module App.
Import Pure.

(** *** [str.split] and [str.strip] *)

(** The text before and after the leftmost occurrence of [sep]. *)
Fixpoint cut (sep s : list N) : option (list N * list N) :=
  if starts_with sep s then Some ([], drop (length sep) s)
  else match s with
       | [] => None
       | c :: s' =>
           match cut sep s' with
           | Some (a, b) => Some (c :: a, b)
           | None => None
           end
       end.

(** [s.split(sep)] for a separator that is not empty: the occurrences
    are taken from the left and do not overlap.  The text left after an
    occurrence is shorter, so [length s] turns are enough. *)
Fixpoint split_fuel (fuel : nat) (sep s : list N) : list (list N) :=
  match fuel with
  | 0 => [s]
  | S fuel' =>
      match cut sep s with
      | None => [s]
      | Some (a, b) => a :: split_fuel fuel' sep b
      end
  end.

Definition split (sep s : list N) : list (list N) :=
  split_fuel (length s) sep s.

(** [sep.join(parts)] *)
Fixpoint join (sep : list N) (parts : list (list N)) : list N :=
  match parts with
  | [] => []
  | [p] => p
  | p :: rest => p ++ sep ++ join sep rest
  end.

(** [str.isspace] on one character: the white space of Unicode. *)
Definition isspace_cp (c : N) : bool :=
  (((9 <=? c) && (c <=? 13)) || ((28 <=? c) && (c <=? 32))
   || (c =? 133) || (c =? 160) || (c =? 5760)
   || ((8192 <=? c) && (c <=? 8202))
   || (c =? 8232) || (c =? 8233) || (c =? 8239) || (c =? 8287)
   || (c =? 12288))%N.

Fixpoint lstrip_ws (s : list N) : list N :=
  match s with
  | c :: rest => if isspace_cp c then lstrip_ws rest else s
  | [] => []
  end.

(** [s.strip()] *)
Definition strip_ws (s : list N) : list N :=
  rev (lstrip_ws (rev (lstrip_ws s))).

(** *** Exceptions and results of the callbacks *)

Inductive app_exn : Type :=
  | ValueError
  | IndexError
  | PyExn (e : exn).

Inductive result (A : Type) : Type :=
  | Done (a : A)
  | Fail (e : app_exn).
Arguments Done {A} a.
Arguments Fail {A} e.

Definition rbind {A B} (c : result A) (f : A -> result B) : result B :=
  match c with
  | Done a => f a
  | Fail e => Fail e
  end.

Definition lift {A} (c : res A) : result A :=
  match c with
  | Ok a => Done a
  | Raise e => Fail (PyExn e)
  end.

Declare Scope app_scope.
Delimit Scope app_scope with app.
Notation "x <- c ;; k" := (rbind c (fun x => k))
  (at level 100, c at next level, right associativity) : app_scope.

(** [parts[i]] *)
Definition item (parts : list (list N)) (i : nat) : result (list N) :=
  match parts !! i with
  | Some p => Done p
  | None => Fail IndexError
  end.

(** *** [encode_image_contents] *)

(** [content_type, content_string = contents.split(',')]: the unpacking
    wants two parts exactly. *)
Definition encode_image_contents (contents : list N) : result (list N) :=
  match split (py ",") contents with
  | [content_type; content_string] => Done content_string
  | _ => Fail ValueError
  end.

(** *** [analyze_with_gpt], after the request *)

(** The text between the fences of a code block, when there is one. *)
Definition extract_json_text (response_text : list N) : result (list N) :=
  (if contains (py "```json") response_text then
     after <- item (split (py "```json") response_text) 1 ;;
     body <- item (split (py "```") after) 0 ;;
     Done (strip_ws body)
   else if contains (py "```") response_text then
     after <- item (split (py "```") response_text) 1 ;;
     body <- item (split (py "```") after) 0 ;;
     Done (strip_ws body)
   else Done response_text)%app.

(** [{"error": str(e)}] *)
Definition error_response (message : list N) : json :=
  dict [(py "error", JStr message)].

(** The request and the JSON decoder are collaborators: [chat] gives the
    content of the first choice ([None] is possible) or the message of
    the exception of the request; [json_loads] gives the decoded value
    or the message of its exception.  Every exception in the body is
    caught and becomes an error response. *)
Definition analyze_with_gpt
    (chat : list N -> list N + option (list N))
    (json_loads : list N -> list N + json)
    (image_base64 : list N) : json :=
  match chat image_base64 with
  | inl message => error_response message
  | inr None => error_response (py "'NoneType' object has no attribute 'strip'")
  | inr (Some content) =>
      match extract_json_text (strip_ws content) with
      | Fail _ => error_response (py "list index out of range")
      | Done response_text =>
          match json_loads response_text with
          | inl message => error_response message
          | inr parsed_response => parsed_response
          end
      end
  end.

(** *** [toggle_oedeme_details] *)

Definition toggle_oedeme_details (value : json) : json :=
  if eq_str (py "Présent") value
  then dict [(py "display", JStr (py "block"))]
  else dict [(py "display", JStr (py "none"))].

(** *** [analyze_image] *)

(** The truth value of a decoded JSON value *)
Definition py_truthy (v : json) : bool :=
  match v with
  | JNull => false
  | JBool b => b
  | JInt n => negb (n =? 0)%Z
  | JFloat m _ => negb (m =? 0)%Z
  | JStr s => match s with [] => false | _ => true end
  | JArr l => match l with [] => false | _ => true end
  | JObj m => negb (bool_decide (m = ∅))
  end.

(** [x if x is not None else "Absent"] *)
Definition or_absent (x : json) : json :=
  match x with JNull => JStr (py "Absent") | _ => x end.

(** [analysis[eye][key] = value] *)
Definition set_in_eye (analysis : json) (eye key : list N) (value : json)
    : res json :=
  (eye_data <- py_getitem analysis eye ;;
   eye_data <- py_setitem eye_data key value ;;
   py_setitem analysis eye eye_data)%py.

(** The seven values of one side, in the order of the list literal. *)
Definition main_values (analysis : json) (side : list N)
    (briding decollement : json) : res (list json) :=
  (eye_data <- py_getitem analysis (side ++ py "_eye") ;;
   dril <- py_getitem eye_data (py "dril") ;;
   dril_status <- py_getitem dril (py "status") ;;
   oedeme <- py_getitem eye_data (py "oedeme") ;;
   oedeme_status <- py_getitem oedeme (py "status") ;;
   mle <- py_getitem eye_data (py "mle") ;;
   ze <- py_getitem eye_data (py "ze") ;;
   points <- py_getitem eye_data (py "points_hyperreflectifs") ;;
   points_status <- py_getitem points (py "status") ;;
   Ok [dril_status; oedeme_status; briding; mle; ze; points_status; decollement])%py.

(** [oedeme_data[key] if oedeme_data['status'] == 'Présent' else ''],
    with [.lower()] on the value for the taille. *)
Definition oedeme_detail (analysis : json) (side key : list N) (lowered : bool)
    : res json :=
  (eye_data <- py_getitem analysis (side ++ py "_eye") ;;
   oedeme_data <- py_getitem eye_data (py "oedeme") ;;
   status <- py_getitem oedeme_data (py "status") ;;
   if eq_str (py "Présent") status then
     value <- py_getitem oedeme_data key ;;
     if lowered then low <- py_lower value ;; Ok (JStr low) else Ok value
   else Ok (JStr (py "")))%py.

Definition sections : list (list N * list N) :=
  [ (py "central", py "Central");
    (py "superieur", py "Supérieur");
    (py "inferieur", py "Inférieur");
    (py "nasal", py "Nasal");
    (py "temporal", py "Temporal") ].

(** [retinal_thickness.get(key, '')] *)
Definition get_or_empty (m : gmap (list N) json) (key : list N) : json :=
  match m !! key with Some v => v | None => JStr (py "") end.

(** The parts [f"{label}: {value}μm"] of the sectors whose value is true;
    [format_value] is the text of a value in an f-string. *)
Fixpoint edtrs_parts (format_value : json -> list N)
    (m : gmap (list N) json) (secs : list (list N * list N)) : list (list N) :=
  match secs with
  | [] => []
  | (key, label) :: rest =>
      let value := get_or_empty m key in
      if py_truthy value
      then (label ++ py ": " ++ format_value value ++ py "μm")
           :: edtrs_parts format_value m rest
      else edtrs_parts format_value m rest
  end.

Definition edtrs_value (format_value : json -> list N) (analysis : json)
    (side : list N) : res json :=
  (eye_data <- py_getitem analysis (side ++ py "_eye") ;;
   retinal_thickness <- py_getitem eye_data (py "epaisseur_retinienne") ;;
   match retinal_thickness with
   | JObj m =>
       let parts := edtrs_parts format_value m sections in
       Ok (JStr (match parts with [] => py "" | _ => join (py ", ") parts end))
   | _ => Ok (JStr (py ""))
   end)%py.

Definition on_sides (f : list N -> res json) : res (list json) :=
  (l <- f (py "left") ;; r <- f (py "right") ;; Ok [l; r])%py.

(** The indexes the closing trace reads: [results[base_idx + i]] for the
    seven components of each side, [results[14 + i * 2 + side]] for the
    four details. *)
Definition trace_indexes : list nat :=
  flat_map (fun base_idx => map (fun i => base_idx + i) (seq 0 7)) [0; 7]
  ++ flat_map (fun side => map (fun i => 14 + i * 2 + side) (seq 0 4)) [0; 1].

Fixpoint read_all (results : list json) (indexes : list nat) : result unit :=
  match indexes with
  | [] => Done tt
  | i :: rest =>
      match results !! i with
      | Some _ => read_all results rest
      | None => Fail IndexError
      end
  end.

(** [contents.split(',')] on the value of the upload *)
Definition encode_contents (contents : json) : result (list N) :=
  match contents with
  | JStr s => encode_image_contents s
  | _ => Fail (PyExn AttributeError)
  end.

Definition analyze_image
    (chat : list N -> list N + option (list N))
    (json_loads : list N -> list N + json)
    (format_value : json -> list N)
    (contents left_briding left_decollement right_briding right_decollement : json)
    : result (list json) :=
  (if negb (py_truthy contents) then Done (repeat JNull 22)
   else
     image_base64 <- encode_contents contents ;;
     let raw_response := analyze_with_gpt chat json_loads image_base64 in
     analysis <- lift (process_gpt_response raw_response) ;;
     analysis <- lift (set_in_eye analysis (py "left_eye") (py "briding")
                         (or_absent left_briding)) ;;
     analysis <- lift (set_in_eye analysis (py "left_eye") (py "decollement")
                         (or_absent left_decollement)) ;;
     analysis <- lift (set_in_eye analysis (py "right_eye") (py "briding")
                         (or_absent right_briding)) ;;
     analysis <- lift (set_in_eye analysis (py "right_eye") (py "decollement")
                         (or_absent right_decollement)) ;;
     main_left <- lift (main_values analysis (py "left")
                          left_briding left_decollement) ;;
     main_right <- lift (main_values analysis (py "right")
                           right_briding right_decollement) ;;
     nb_logette <- lift (on_sides (fun side =>
                      oedeme_detail analysis side (py "nb_logette") false)) ;;
     taille <- lift (on_sides (fun side =>
                      oedeme_detail analysis side (py "taille") true)) ;;
     localisation <- lift (on_sides (fun side =>
                      oedeme_detail analysis side (py "localisation") false)) ;;
     edtrs <- lift (on_sides (edtrs_value format_value analysis)) ;;
     let results := main_left ++ main_right ++ nb_logette ++ taille
                    ++ localisation ++ edtrs in
     _ <- read_all results trace_indexes ;;
     Done results)%app.

(** The ids of the [Output]s of the callback, in the order of the
    decorator. *)
Definition output_ids : list (list N) :=
  flat_map (fun side =>
              map (fun component => component ++ py "-" ++ lower side)
                  [py "dril"; py "oedeme"; py "briding"; py "mle"; py "ze";
                   py "points"; py "decollement"])
           [py "left"; py "right"]
  ++ map (fun side => py "nb-logette-input-" ++ lower side) [py "left"; py "right"]
  ++ map (fun side => py "taille-logette-input-" ++ lower side) [py "left"; py "right"]
  ++ map (fun side => py "localisation-input-" ++ lower side) [py "left"; py "right"]
  ++ map (fun side => py "edtrs-input-" ++ lower side) [py "left"; py "right"].

End App.
(** ** What each block computes on a dict

    The blocks of the loop body each rewrite one key of [eye_data].  The
    definitions of this module give every block as an update of that key;
    the lemmas of [PureFacts] prove that the blocks of [Pure] are these
    updates. *)

Module Norm.
Import Pure.

(** The value of [status] after the status lines, from the raw string. *)
Definition code_status (present absent raw : pystr) : list N :=
  let status := capitalize raw in
  if in_labels status [present; absent] then status
  else if contains (py "present") (lower status) then present else absent.

Definition code_taille (raw : pystr) : list N :=
  table_get taille_mapping (lower raw) (lower raw).

Definition code_membrane (value : pystr) : list N :=
  if contains (py "continu") (lower value) then py "Continue"
  else if contains (py "partiel") (lower value) then py "Partiellement interrompue"
  else if contains (py "complet") (lower value) then py "Complètement interrompue"
  else value.

Definition update_key (k : pystr) (f : json -> res json)
    (e : gmap (list N) json) : res (gmap (list N) json) :=
  match e !! k with
  | None => Ok e
  | Some v => v' <- f v ;; Ok (<[k := v']> e)
  end.

Definition norm_status (present absent : pystr) (v : json) : res json :=
  match v with
  | JObj d =>
      match d !! py "status" with
      | None => Raise KeyError
      | Some (JStr raw) =>
          Ok (JObj (<[py "status" := JStr (code_status present absent raw)]> d))
      | Some _ => Raise AttributeError
      end
  | _ => Ok v
  end.

Definition norm_taille (v : json) : res json :=
  match v with
  | JObj d =>
      match d !! py "taille" with
      | None => Ok v
      | Some (JStr raw) => Ok (JObj (<[py "taille" := JStr (code_taille raw)]> d))
      | Some _ => Raise AttributeError
      end
  | _ => Ok v
  end.

Definition norm_oedeme (v : json) : res json :=
  v' <- norm_status (py "Présent") (py "Absent") v ;; norm_taille v'.

Definition norm_membrane (v : json) : res json :=
  match v with
  | JStr value => Ok (JStr (code_membrane value))
  | _ => Raise AttributeError
  end.

Definition norm_epaisseur (v : json) : res json :=
  Ok (if is_str v then sectors v else v).

Definition default_map : gmap (list N) json := list_to_map default_eye_items.

(** The loop body on a dict, block by block. *)
Definition eye_steps (e : gmap (list N) json) : res (gmap (list N) json) :=
  e <- update_key (py "dril") (norm_status (py "Présente") (py "Absente")) e ;;
  e <- update_key (py "oedeme") norm_oedeme e ;;
  e <- update_key (py "mle") norm_membrane e ;;
  e <- update_key (py "ze") norm_membrane e ;;
  e <- update_key (py "points_hyperreflectifs")
         (norm_status (py "Présents") (py "Absents")) e ;;
  e <- update_key (py "epaisseur_retinienne") norm_epaisseur e ;;
  Ok (e ∪ default_map).

(** What the loop body does to the value under key [k]. *)
Definition field_norm (k : pystr) : json -> res json :=
  if decide (k = py "dril") then norm_status (py "Présente") (py "Absente")
  else if decide (k = py "oedeme") then norm_oedeme
  else if decide (k = py "mle") then norm_membrane
  else if decide (k = py "ze") then norm_membrane
  else if decide (k = py "points_hyperreflectifs")
       then norm_status (py "Présents") (py "Absents")
  else if decide (k = py "epaisseur_retinienne") then norm_epaisseur
  else Ok.

(** One turn of the loop over the eyes, on a dict. *)
Definition eye_step (eye : pystr) (m : gmap (list N) json)
    : res (gmap (list N) json) :=
  match m !! eye with
  | None => Ok (<[eye := default_eye]> m)
  | Some (JObj e) => e' <- eye_steps e ;; Ok (<[eye := JObj e']> m)
  | Some _ => Raise TypeError
  end.

(** What [eye_step] leaves under the key [eye] of the outcome [m'] *)
Definition eye_out (m m' : gmap (list N) json) (eye : pystr) : Prop :=
  match m !! eye with
  | None => m' !! eye = Some default_eye
  | Some v =>
      exists e e', v = JObj e /\ eye_steps e = Ok e' /\ m' !! eye = Some (JObj e')
  end.


(** *** The inputs on which no operation raises *)






(** Reading the outcome: [field v k] is [v[k]] when it exists. *)
Definition field (v : json) (k : pystr) : option json :=
  match v with JObj m => m !! k | _ => None end.

Definition field2 (v : json) (k1 k2 : pystr) : option json :=
  v1 ← field v k1; field v1 k2.

Definition field3 (v : json) (k1 k2 k3 : pystr) : option json :=
  v2 ← field2 v k1 k2; field v2 k3.

Definition eyes : list (list N) := [py "left_eye"; py "right_eye"].

(** The three entries that carry a [status], with their two labels. *)
Definition status_fields : list (list N * list N * list N) :=
  [ (py "dril", py "Présente", py "Absente");
    (py "oedeme", py "Présent", py "Absent");
    (py "points_hyperreflectifs", py "Présents", py "Absents") ].

End Norm.

(** ** The objects a call allocates for its default structure *)

Module Template.
Import Heap.

Definition inner_defaults : list obj :=
  [ ODict [ (py "status", VStr (py "Absente"));
            (py "extent", VStr (py "")) ];
    ODict [ (py "status", VStr (py "Absent"));
            (py "nb_logette", VStr (py ""));
            (py "taille", VStr (py ""));
            (py "localisation", VStr (py "")) ];
    ODict [ (py "status", VStr (py "Absents"));
            (py "nombre", VStr (py ""));
            (py "localisation", VStr (py "")) ];
    ODict [ (py "central", VStr (py ""));
            (py "superieur", VStr (py ""));
            (py "inferieur", VStr (py ""));
            (py "nasal", VStr (py ""));
            (py "temporal", VStr (py "")) ] ].

(** An eye whose four inner dicts sit at [base + off] and the next three
    places. *)
Definition eye_object (base off : nat) : obj :=
  ODict [ (py "dril", VRef (base + off));
          (py "oedeme", VRef (base + (off + 1)));
          (py "mle", VStr (py "Continue"));
          (py "ze", VStr (py "Continue"));
          (py "points_hyperreflectifs", VRef (base + (off + 2)));
          (py "epaisseur_retinienne", VRef (base + (off + 3)));
          (py "briding", VStr (py "Absent"));
          (py "decollement", VStr (py "Absent")) ].

(** The twelve objects of [default_structure], allocated from [base] on:
    the left eye at [base + 4], the empty dict first written under
    ["right_eye"], the structure itself at [base + 6], the deep copy at
    [base + 11]. *)
Definition template (base : nat) : list obj :=
  inner_defaults
  ++ [ eye_object base 0;
       ODict [];
       ODict [ (py "left_eye", VRef (base + 4));
               (py "right_eye", VRef (base + 11)) ] ]
  ++ inner_defaults
  ++ [ eye_object base 7 ].

End Template.

(** ** What a call may change in the store *)

Module Frame.
Import Heap.

(** The keys the loop body assigns to. *)
Definition written_keys : list (list N) :=
  [py "status"; py "taille"] ++ map fst Pure.default_eye_items.

(** A dict after the call against the dict before it: no key is lost,
    and a key that is not assigned to keeps its value. *)
Definition dict_frame (items items' : list (list N * val)) : Prop :=
  forall k v, assoc k items = Some v ->
    is_Some (assoc k items')
    /\ (in_labels k written_keys = false -> assoc k items' = Some v).

(** A store after the call against the store before it: every object is
    still in its place, lists are as they were, dicts are changed within
    [dict_frame]. *)
Definition frame (h h' : list obj) : Prop :=
  forall l o, h !! l = Some o ->
    match o with
    | OList xs => h' !! l = Some (OList xs)
    | ODict items =>
        exists items', h' !! l = Some (ODict items') /\ dict_frame items items'
    end.

Definition framed {A} (c : M A) : Prop := forall h, frame h (snd (c h)).

Definition readonly {A} (c : M A) : Prop := forall h, snd (c h) = h.

End Frame.

(** ** The two embeddings side by side *)

Module Agree.
Import Heap.

(** The call on the store [h], its outcome read back as a tree. *)
Definition heap_outcome (h : list obj) (v : val) : option (res json) :=
  match Heap.process_gpt_response v h with
  | (Ret r, h') => j ← reify 6 h' r; Some (Ok j)
  | (Exn e, _) => Some (Raise e)
  | (Stuck, _) => None
  end.

(** The argument read as a tree, then the call at value level. *)
Definition pure_outcome (h : list obj) (v : val) : option (res json) :=
  j ← reify 6 h v; Some (Pure.process_gpt_response j).

End Agree.

(** ** The values of the form, read off the normalised answer *)

Module Form.
Import Pure Norm App.

(** The detail of the oedeme that the form shows for [eye]: blank unless
    the status is "Présent". *)
Definition detail_of (analysis : json) (eye key : list N) (lowered : bool)
    : option json :=
  status ← field3 analysis eye (py "oedeme") (py "status");
  if eq_str (py "Présent") status then
    value ← field3 analysis eye (py "oedeme") key;
    if lowered
    then match value with JStr s => Some (JStr (lower s)) | _ => None end
    else Some value
  else Some (JStr (py "")).

Definition edtrs_of (format_value : json -> list N) (analysis : json)
    (eye : list N) : option json :=
  t ← field2 analysis eye (py "epaisseur_retinienne");
  Some (match t with
        | JObj m =>
            let parts := edtrs_parts format_value m sections in
            JStr (match parts with [] => py "" | _ => join (py ", ") parts end)
        | _ => JStr (py "")
        end).

(** Each widget of the form with the value it is to show. *)
Definition form_values (format_value : json -> list N) (analysis : json)
    (left_briding left_decollement right_briding right_decollement : json)
    : list (list N * option json) :=
  [ (py "dril-left", field3 analysis (py "left_eye") (py "dril") (py "status"));
    (py "oedeme-left", field3 analysis (py "left_eye") (py "oedeme") (py "status"));
    (py "briding-left", Some left_briding);
    (py "mle-left", field2 analysis (py "left_eye") (py "mle"));
    (py "ze-left", field2 analysis (py "left_eye") (py "ze"));
    (py "points-left",
     field3 analysis (py "left_eye") (py "points_hyperreflectifs") (py "status"));
    (py "decollement-left", Some left_decollement);
    (py "dril-right", field3 analysis (py "right_eye") (py "dril") (py "status"));
    (py "oedeme-right", field3 analysis (py "right_eye") (py "oedeme") (py "status"));
    (py "briding-right", Some right_briding);
    (py "mle-right", field2 analysis (py "right_eye") (py "mle"));
    (py "ze-right", field2 analysis (py "right_eye") (py "ze"));
    (py "points-right",
     field3 analysis (py "right_eye") (py "points_hyperreflectifs") (py "status"));
    (py "decollement-right", Some right_decollement);
    (py "nb-logette-input-left",
     detail_of analysis (py "left_eye") (py "nb_logette") false);
    (py "nb-logette-input-right",
     detail_of analysis (py "right_eye") (py "nb_logette") false);
    (py "taille-logette-input-left",
     detail_of analysis (py "left_eye") (py "taille") true);
    (py "taille-logette-input-right",
     detail_of analysis (py "right_eye") (py "taille") true);
    (py "localisation-input-left",
     detail_of analysis (py "left_eye") (py "localisation") false);
    (py "localisation-input-right",
     detail_of analysis (py "right_eye") (py "localisation") false);
    (py "edtrs-input-left", edtrs_of format_value analysis (py "left_eye"));
    (py "edtrs-input-right", edtrs_of format_value analysis (py "right_eye")) ].

End Form.

(** Collaborators and inputs for the examples: a request that fails, one
    that answers, a decoder with a fixed outcome, and the text of a
    string in an f-string. *)
Module Scenario.
Import Pure App.

Definition upload : json := JStr (py "data:image/png;base64,iVBORw0KGgo=").

Definition failing_chat : list N -> list N + option (list N) :=
  fun _ => inl (py "Connection error.").

Definition answering_chat : list N -> list N + option (list N) :=
  fun _ => inr (Some (py "```json {} ```")).

Definition failing_decoder : list N -> list N + json :=
  fun _ => inl (py "Expecting value: line 1 column 1 (char 0)").

(** A left eye whose oedeme is present, without its details *)
Definition bare_oedeme : json :=
  dict [(py "left_eye",
         dict [(py "oedeme", dict [(py "status", JStr (py "Présent"))])])].

(** A left eye whose oedeme is present, with its details *)
Definition full_oedeme : json :=
  dict [(py "left_eye",
         dict [(py "oedeme",
                dict [(py "status", JStr (py "présent"));
                      (py "nb_logette", JStr (py "3"));
                      (py "taille", JStr (py "Small"));
                      (py "localisation", JStr (py "fovéolaire"))]);
               (py "epaisseur_retinienne", JStr (py "250"))])].

Definition decoder_of (v : json) : list N -> list N + json :=
  fun _ => inr v.

Definition text_of (v : json) : list N :=
  match v with JStr s => s | _ => [] end.

End Scenario.
(** ** Lemmas on Python strings *)

Module PyStrFacts.

Ltac cp_cases :=
  repeat (match goal with
          | |- context [N.leb ?a ?b] => destruct (N.leb_spec a b)
          | |- context [N.eqb ?a ?b] => destruct (N.eqb_spec a b)
          end; cbn [andb orb negb] in *; try lia).

Lemma lower_cp_idem c : lower_cp (lower_cp c) = lower_cp c.
Proof. unfold lower_cp. cp_cases. Qed.

Lemma lower_idem s : lower (lower s) = lower s.
Proof.
  unfold lower. rewrite map_map. apply map_ext. intros c. apply lower_cp_idem.
Qed.

Lemma lower_app s t : lower (s ++ t) = lower s ++ lower t.
Proof. apply map_app. Qed.

(** Lower-casing the title case of a character gives its lower case,
    but for the three characters whose title case leaves Latin-1. *)
Lemma lower_title_cp c :
  c <> 223%N -> c <> 255%N -> c <> 181%N ->
  lower (title_cp c) = [lower_cp c].
Proof.
  intros. unfold title_cp, lower, lower_cp; cp_cases; cbn [map];
    cp_cases; f_equal; lia.
Qed.

Lemma contains_skip p0 p c s :
  p0 <> c -> contains (p0 :: p) (c :: s) = contains (p0 :: p) s.
Proof.
  intros Hne. cbn [contains starts_with].
  destruct (N.eqb_spec p0 c); [done|]. reflexivity.
Qed.

(** The token "present" is seen in the capitalised string exactly when it
    is in the lower-cased raw string. *)
Lemma contains_present_capitalize s :
  contains (py "present") (lower (capitalize s))
  = contains (py "present") (lower s).
Proof.
  destruct s as [|c rest]; [reflexivity|].
  cbn [capitalize]. rewrite lower_app, lower_idem.
  destruct (decide (c = 223%N)) as [->|H1]; [reflexivity|].
  destruct (decide (c = 255%N)) as [->|H2]; [reflexivity|].
  destruct (decide (c = 181%N)) as [->|H3]; [reflexivity|].
  by rewrite lower_title_cp.
Qed.

Lemma title_cp_head c x l0 y :
  l0 = 65%N \/ l0 = 80%N ->
  title_cp c ++ x = l0 :: y <-> lower_cp c = lower_cp l0 /\ x = y.
Proof.
  intros Hl0.
  assert (lower_cp l0 = (l0 + 32)%N) as -> by (by destruct Hl0 as [-> | ->]).
  unfold title_cp, lower_cp. cp_cases; cbn [app];
    (split; [intros [= ? ?]; first [exfalso; lia | split; [lia | done]]
            | intros [? ->]; first [exfalso; lia | f_equal; lia]]).
Qed.

(** [capitalize] gives a label exactly on the strings that match it
    without regard to case. *)
Lemma capitalize_eq_label raw l :
  label_like l -> capitalize raw = l <-> lower raw = lower l.
Proof.
  intros (l0 & rest & -> & Hl0 & Hrest).
  destruct raw as [|c raw]; [done|].
  cbn [capitalize lower map]. rewrite title_cp_head by done.
  fold (lower raw). fold (lower rest). rewrite Hrest.
  split; [intros [-> ->]; done | intros [= -> ->]; done].
Qed.

Lemma table_get_cases table k d :
  table_get table k d = d \/ In (table_get table k d) (map snd table).
Proof.
  induction table as [|[k' v] table IH]; [by left|].
  cbn [table_get]. destruct (str_eqb k k'); [right; by left|].
  destruct IH; [by left | right; by right].
Qed.

End PyStrFacts.
(** ** Lemmas on the value-level embedding *)

Module PureFacts.
Import Pure Norm PyStrFacts.

Ltac key_neq :=
  let H := fresh in intro H; vm_compute in H; discriminate H.
Ltac solve_ne := first [assumption | key_neq].

Lemma bind_ok {A B} (c : res A) (f : A -> res B) b :
  bind c f = Ok b -> exists a, c = Ok a /\ f a = Ok b.
Proof. destruct c; simpl; [eauto | discriminate]. Qed.

Lemma standardize_status_dict present absent d :
  standardize_status present absent (JObj d) = norm_status present absent (JObj d).
Proof.
  unfold standardize_status, norm_status, code_status; simpl.
  destruct (d !! py "status") as [[]|]; simpl; try reflexivity.
  rewrite insert_insert_eq.
  destruct (_ || _); simpl; [|reflexivity].
  reflexivity.
Qed.

Lemma standardize_dril_dict e :
  standardize_dril (JObj e)
  = (e' <- update_key (py "dril") (norm_status (py "Présente") (py "Absente")) e ;;
     Ok (JObj e')).
Proof.
  unfold standardize_dril, update_key; simpl; unfold has_key.
  destruct (e !! py "dril") as [v|] eqn:E; simpl; [|reflexivity].
  destruct v; try (by simpl; rewrite insert_id).
  cbn [is_dict]. rewrite standardize_status_dict.
  destruct (norm_status _ _ _); reflexivity.
Qed.

Lemma standardize_taille_dict d :
  standardize_taille (JObj d) = norm_taille (JObj d).
Proof.
  unfold standardize_taille, norm_taille, code_taille; simpl; unfold has_key.
  destruct (d !! py "taille") as [[]|]; reflexivity.
Qed.

Lemma norm_status_dict present absent d v :
  norm_status present absent (JObj d) = Ok v -> exists d', v = JObj d'.
Proof.
  unfold norm_status. destruct (d !! py "status") as [[]|]; try discriminate.
  intros [= <-]. eauto.
Qed.

Lemma standardize_oedeme_dict e :
  standardize_oedeme (JObj e)
  = (e' <- update_key (py "oedeme") norm_oedeme e ;; Ok (JObj e')).
Proof.
  unfold standardize_oedeme, update_key, norm_oedeme; simpl; unfold has_key.
  destruct (e !! py "oedeme") as [v|] eqn:E; simpl; [|reflexivity].
  destruct v; try (by simpl; rewrite insert_id).
  cbn [is_dict]. rewrite standardize_status_dict.
  destruct (norm_status _ _ _) as [v|] eqn:Hs; [|reflexivity].
  apply norm_status_dict in Hs as [d' ->].
  cbn [bind]. rewrite standardize_taille_dict.
  destruct (norm_taille _); reflexivity.
Qed.

Lemma standardize_membrane_dict e field :
  standardize_membrane (JObj e) field
  = (e' <- update_key field norm_membrane e ;; Ok (JObj e')).
Proof.
  unfold standardize_membrane, update_key, norm_membrane, code_membrane.
  simpl; unfold has_key.
  destruct (e !! field) as [v|] eqn:E; simpl; [|reflexivity].
  destruct v; simpl; try reflexivity.
  repeat (destruct (contains _ _); [reflexivity|]).
  simpl. by rewrite insert_id.
Qed.

Lemma standardize_points_dict e :
  standardize_points (JObj e)
  = (e' <- update_key (py "points_hyperreflectifs")
             (norm_status (py "Présents") (py "Absents")) e ;;
     Ok (JObj e')).
Proof.
  unfold standardize_points, update_key; simpl; unfold has_key.
  destruct (e !! py "points_hyperreflectifs") as [v|] eqn:E; simpl; [|reflexivity].
  destruct v; try (by simpl; rewrite insert_id).
  cbn [is_dict]. rewrite standardize_status_dict.
  destruct (norm_status _ _ _); reflexivity.
Qed.

Lemma format_epaisseur_dict e :
  format_epaisseur (JObj e)
  = (e' <- update_key (py "epaisseur_retinienne") norm_epaisseur e ;; Ok (JObj e')).
Proof.
  unfold format_epaisseur, update_key, norm_epaisseur; simpl; unfold has_key.
  destruct (e !! py "epaisseur_retinienne") as [v|] eqn:E; simpl; [|reflexivity].
  destruct v; simpl; try (by rewrite insert_id); reflexivity.
Qed.

(** The closing loop is a left-biased union with the defaults. *)
Lemma add_missing_all items e :
  for_each items add_missing (JObj e) = Ok (JObj (e ∪ list_to_map items)).
Proof.
  revert e. induction items as [|[k v] items IH]; intros e; simpl.
  - by rewrite (right_id_L ∅ (∪)).
  - unfold add_missing at 1; simpl; unfold has_key.
    destruct (e !! k) as [x|] eqn:E; simpl; rewrite IH; do 2 f_equal.
    + apply map_eq; intros i. rewrite !lookup_union.
      destruct (decide (k = i)) as [<-|Hne].
      * rewrite E, lookup_insert_eq. by destruct (list_to_map items !! k).
      * by rewrite lookup_insert_ne.
    + apply map_eq; intros i. rewrite !lookup_union.
      destruct (decide (k = i)) as [<-|Hne].
      * rewrite E, !lookup_insert_eq. by destruct (list_to_map items !! k).
      * by rewrite !lookup_insert_ne.
Qed.

Lemma standardize_eye_dict e :
  standardize_eye (JObj e) = (e' <- eye_steps e ;; Ok (JObj e')).
Proof.
  unfold standardize_eye, eye_steps.
  rewrite standardize_dril_dict.
  destruct (update_key (py "dril") _ e) as [e1|]; [cbn [bind]|reflexivity].
  rewrite standardize_oedeme_dict.
  destruct (update_key (py "oedeme") _ e1) as [e2|]; [cbn [bind]|reflexivity].
  cbn [for_each]. rewrite standardize_membrane_dict.
  destruct (update_key (py "mle") _ e2) as [e3|]; [cbn [bind]|reflexivity].
  rewrite standardize_membrane_dict.
  destruct (update_key (py "ze") _ e3) as [e4|]; [cbn [bind]|reflexivity].
  rewrite standardize_points_dict.
  destruct (update_key (py "points_hyperreflectifs") _ e4) as [e5|];
    [cbn [bind]|reflexivity].
  rewrite format_epaisseur_dict.
  destruct (update_key (py "epaisseur_retinienne") _ e5) as [e6|];
    [cbn [bind]|reflexivity].
  apply add_missing_all.
Qed.

(** Anything but a dict in the place of an eye raises [TypeError]: a list
    or a string cannot be subscripted by a key, the rest is not iterable. *)
Lemma standardize_eye_not_dict v :
  is_dict v = false -> standardize_eye v = Raise TypeError.
Proof.
  destruct v; try discriminate; intros _; try reflexivity.
  - unfold standardize_eye, standardize_dril, standardize_oedeme,
      standardize_points, format_epaisseur, standardize_membrane; simpl.
    destruct (contains (py "dril") s) eqn:Hdril; [reflexivity|]; simpl.
    repeat (match goal with
            | |- context [contains ?k ?s] => destruct (contains k s); simpl
            end; try reflexivity).
    unfold add_missing at 1; simpl. by rewrite Hdril.
  - unfold standardize_eye, standardize_dril, standardize_oedeme,
      standardize_points, format_epaisseur, standardize_membrane; simpl.
    destruct (existsb (eq_str (py "dril")) l) eqn:Hdril; [reflexivity|]; simpl.
    repeat (match goal with
            | |- context [existsb ?f ?l] => destruct (existsb f l); simpl
            end; try reflexivity).
    unfold add_missing at 1; simpl. by rewrite Hdril.
Qed.

(** *** Looking a key up in the outcome *)

Lemma update_key_other k f e e' k' :
  update_key k f e = Ok e' -> k' <> k -> e' !! k' = e !! k'.
Proof.
  unfold update_key. destruct (e !! k) as [v|]; [|by intros [= <-]].
  destruct (f v); simpl; [|discriminate].
  intros [= <-] Hne. by rewrite lookup_insert_ne.
Qed.

Lemma update_key_same k f e e' :
  update_key k f e = Ok e' ->
  match e !! k with
  | Some v => exists v', f v = Ok v' /\ e' !! k = Some v'
  | None => e' !! k = None
  end.
Proof.
  unfold update_key. destruct (e !! k) as [v|] eqn:E; [|by intros [= <-]].
  destruct (f v) as [v'|]; simpl; [|discriminate].
  intros [= <-]. exists v'. by rewrite lookup_insert_eq.
Qed.

Lemma eye_steps_lookup e e' k :
  eye_steps e = Ok e' ->
  match e !! k with
  | Some v => exists v', field_norm k v = Ok v' /\ e' !! k = Some v'
  | None => e' !! k = default_map !! k
  end.
Proof.
  intros H. unfold eye_steps in H.
  apply bind_ok in H as (e1 & H1 & H). apply bind_ok in H as (e2 & H2 & H).
  apply bind_ok in H as (e3 & H3 & H). apply bind_ok in H as (e4 & H4 & H).
  apply bind_ok in H as (e5 & H5 & H). apply bind_ok in H as (e6 & H6 & H).
  injection H as <-. rewrite lookup_union.
  pose proof (update_key_same _ _ _ _ H1) as S1.
  pose proof (update_key_same _ _ _ _ H2) as S2.
  pose proof (update_key_same _ _ _ _ H3) as S3.
  pose proof (update_key_same _ _ _ _ H4) as S4.
  pose proof (update_key_same _ _ _ _ H5) as S5.
  pose proof (update_key_same _ _ _ _ H6) as S6.
  pose proof (fun k' => update_key_other _ _ _ _ k' H1) as O1.
  pose proof (fun k' => update_key_other _ _ _ _ k' H2) as O2.
  pose proof (fun k' => update_key_other _ _ _ _ k' H3) as O3.
  pose proof (fun k' => update_key_other _ _ _ _ k' H4) as O4.
  pose proof (fun k' => update_key_other _ _ _ _ k' H5) as O5.
  pose proof (fun k' => update_key_other _ _ _ _ k' H6) as O6.
  clear H1 H2 H3 H4 H5 H6.
  unfold field_norm.
  repeat case_decide; subst;
    rewrite ?O6, ?O5, ?O4, ?O3, ?O2, ?O1 by solve_ne;
    rewrite ?O5, ?O4, ?O3, ?O2, ?O1 in S6 by solve_ne;
    rewrite ?O4, ?O3, ?O2, ?O1 in S5 by solve_ne;
    rewrite ?O3, ?O2, ?O1 in S4 by solve_ne;
    rewrite ?O2, ?O1 in S3 by solve_ne;
    rewrite ?O1 in S2 by solve_ne;
    match goal with
    | |- match ?e !! ?k with _ => _ end =>
        destruct (e !! k) as [v|] eqn:E
    end;
    try match goal with
      | S : exists v', _ /\ ?m !! ?k = Some v' |- context [?m !! ?k] =>
          destruct S as (v' & Hf & ->); exists v'; split; [exact Hf|];
          by destruct (default_map !! k)
      | S : ?m !! ?k = None |- context [?m !! ?k] =>
          rewrite S; by destruct (default_map !! k)
      end.
  - exists v. split; [done|]. by destruct (default_map !! k).
  - by destruct (default_map !! k).
Qed.

(** *** When the loop body returns *)





(** *** The whole function on a dict *)

Lemma default_structure_left :
  py_getitem default_structure (py "left_eye") = Ok default_eye.
Proof.
  unfold default_structure, dict; simpl. by rewrite lookup_insert_eq.
Qed.

Lemma default_structure_right :
  py_getitem default_structure (py "right_eye") = Ok default_eye.
Proof.
  unfold default_structure, dict; simpl.
  rewrite lookup_insert_ne by key_neq. by rewrite lookup_insert_eq.
Qed.

Lemma process_eye_dict m eye :
  eye = py "left_eye" \/ eye = py "right_eye" ->
  process_eye (JObj m) eye = (m' <- eye_step eye m ;; Ok (JObj m')).
Proof.
  intros Heye. unfold process_eye, eye_step; simpl; unfold has_key.
  destruct (m !! eye) as [v|]; simpl.
  - destruct v; try (by rewrite standardize_eye_not_dict).
    rewrite standardize_eye_dict. by destruct (eye_steps _).
  - by destruct Heye as [-> | ->];
      rewrite ?default_structure_left, ?default_structure_right.
Qed.

Lemma process_dict m :
  process_gpt_response (JObj m)
  = if has_key m (py "error") then Ok default_structure
    else (m1 <- eye_step (py "left_eye") m ;;
          m2 <- eye_step (py "right_eye") m1 ;;
          Ok (JObj m2)).
Proof.
  unfold process_gpt_response; simpl; unfold has_key.
  destruct (m !! py "error"); simpl; [reflexivity|].
  rewrite process_eye_dict by auto.
  destruct (eye_step (py "left_eye") m) as [m1|]; simpl; [|reflexivity].
  rewrite process_eye_dict by auto.
  by destruct (eye_step (py "right_eye") m1).
Qed.

(** A list or a string can hold the marker, but the trace of the error
    branch subscripts the response by ["error"]; without the marker the
    first eye is missing and cannot be stored. *)
Lemma process_not_dict v :
  is_dict v = false -> process_gpt_response v = Raise TypeError.
Proof.
  destruct v; try discriminate; intros _; try reflexivity.
  - unfold process_gpt_response. cbn [py_in bind].
    destruct (contains (py "error") s); [reflexivity|].
    cbn [for_each]. unfold process_eye at 1. cbn [py_in bind].
    destruct (contains (py "left_eye") s); [reflexivity|].
    cbn [negb]. by rewrite default_structure_left.
  - unfold process_gpt_response. cbn [py_in bind].
    destruct (existsb _ l); [reflexivity|].
    cbn [for_each]. unfold process_eye at 1. cbn [py_in bind].
    destruct (existsb _ l); [reflexivity|].
    cbn [negb]. by rewrite default_structure_left.
Qed.

Lemma eye_step_other eye m m' k :
  eye_step eye m = Ok m' -> k <> eye -> m' !! k = m !! k.
Proof.
  unfold eye_step. intros H Hne.
  destruct (m !! eye) as [[]|]; try discriminate.
  - apply bind_ok in H as (e' & _ & [= <-]). by rewrite lookup_insert_ne.
  - injection H as <-. by rewrite lookup_insert_ne.
Qed.

Lemma eye_step_same eye m m' : eye_step eye m = Ok m' -> eye_out m m' eye.
Proof.
  unfold eye_step, eye_out. intros H.
  destruct (m !! eye) as [[]|]; try discriminate.
  - apply bind_ok in H as (e' & He & [= <-]).
    eexists _, e'. by rewrite lookup_insert_eq.
  - injection H as <-. by rewrite lookup_insert_eq.
Qed.

Lemma process_inv response out :
  process_gpt_response response = Ok out ->
  exists m, response = JObj m /\
    if has_key m (py "error") then out = default_structure
    else exists m', out = JObj m'
         /\ eye_out m m' (py "left_eye") /\ eye_out m m' (py "right_eye")
         /\ (forall k, k <> py "left_eye" -> k <> py "right_eye" ->
                       m' !! k = m !! k).
Proof.
  intros H. destruct (is_dict response) eqn:Hd;
    [|by rewrite process_not_dict in H].
  destruct response; try discriminate. exists m. split; [done|].
  rewrite process_dict in H. destruct (has_key m (py "error")); [by injection H|].
  apply bind_ok in H as (m1 & H1 & H). apply bind_ok in H as (m2 & H2 & H).
  injection H as <-. exists m2. split; [done|].
  pose proof (eye_step_same _ _ _ H1) as S1.
  pose proof (eye_step_same _ _ _ H2) as S2.
  pose proof (fun k => eye_step_other _ _ _ k H1) as O1.
  pose proof (fun k => eye_step_other _ _ _ k H2) as O2.
  repeat split.
  - unfold eye_out in *. rewrite O2 by key_neq. destruct (m !! py "left_eye"); done.
  - unfold eye_out in *. rewrite O1 in S2 by key_neq. done.
  - intros k N1 N2. by rewrite O2, O1.
Qed.



(** *** A second pass changes nothing *)

Lemma code_status_labels present absent raw :
  code_status present absent raw = present \/ code_status present absent raw = absent.
Proof.
  unfold code_status, in_labels, str_eqb; cbn [existsb].
  repeat case_bool_decide; cbn [orb]; auto.
  destruct (contains _ _); auto.
Qed.

Lemma code_status_label present absent l :
  capitalize l = l -> l = present \/ l = absent ->
  code_status present absent l = l.
Proof.
  intros Hc Hl. unfold code_status, in_labels, str_eqb; cbn [existsb].
  rewrite Hc. destruct Hl as [-> | ->]; repeat case_bool_decide; done.
Qed.

Lemma code_status_idem present absent raw :
  capitalize present = present -> capitalize absent = absent ->
  code_status present absent (code_status present absent raw)
  = code_status present absent raw.
Proof.
  intros Hp Ha.
  destruct (code_status_labels present absent raw) as [-> | ->];
    apply code_status_label; auto.
Qed.

Lemma code_taille_idem raw : code_taille (code_taille raw) = code_taille raw.
Proof.
  unfold code_taille at 2 3.
  destruct (table_get_cases taille_mapping (lower raw) (lower raw)) as [Hd|Hin].
  - rewrite Hd. unfold code_taille. by rewrite lower_idem.
  - revert Hin. generalize (table_get taille_mapping (lower raw) (lower raw)).
    intros t Hin. cbn [taille_mapping map snd In] in Hin.
    repeat (destruct Hin as [<-|Hin]; [by vm_compute|]). done.
Qed.

Lemma code_membrane_idem value :
  code_membrane (code_membrane value) = code_membrane value.
Proof.
  unfold code_membrane at 2 3.
  destruct (contains (py "continu") (lower value)) eqn:H1; [by vm_compute|].
  destruct (contains (py "partiel") (lower value)) eqn:H2; [by vm_compute|].
  destruct (contains (py "complet") (lower value)) eqn:H3; [by vm_compute|].
  unfold code_membrane. by rewrite H1, H2, H3.
Qed.

Lemma norm_status_idem present absent v v' :
  capitalize present = present -> capitalize absent = absent ->
  norm_status present absent v = Ok v' -> norm_status present absent v' = Ok v'.
Proof.
  intros Hp Ha. destruct v; try (by intros [= <-]).
  cbn [norm_status]. destruct (m !! py "status") as [[]|]; try discriminate.
  intros [= <-]. cbn [norm_status]. rewrite lookup_insert_eq, insert_insert_eq.
  by rewrite code_status_idem.
Qed.

Lemma norm_taille_idem v v' : norm_taille v = Ok v' -> norm_taille v' = Ok v'.
Proof.
  destruct v; try (by intros [= <-]).
  cbn [norm_taille]. destruct (m !! py "taille") as [[]|] eqn:E; try discriminate.
  - intros [= <-]. cbn [norm_taille]. rewrite lookup_insert_eq, insert_insert_eq.
    by rewrite code_taille_idem.
  - intros [= <-]. cbn [norm_taille]. by rewrite E.
Qed.

Lemma norm_oedeme_idem v v' : norm_oedeme v = Ok v' -> norm_oedeme v' = Ok v'.
Proof.
  unfold norm_oedeme. intros H. apply bind_ok in H as (v1 & H1 & H2).
  assert (norm_status (py "Présent") (py "Absent") v' = Ok v') as ->.
  { destruct v; try (injection H1 as <-; cbn in H2; by injection H2 as <-).
    cbn [norm_status] in H1.
    destruct (m !! py "status") as [[]|]; try discriminate.
    injection H1 as <-. cbn [norm_taille] in H2.
    rewrite lookup_insert_ne in H2 by key_neq.
    assert (code_status (py "Présent") (py "Absent")
              (code_status (py "Présent") (py "Absent") s)
            = code_status (py "Présent") (py "Absent") s) as Hfix
      by (by apply code_status_idem).
    destruct (m !! py "taille") as [[]|]; try discriminate;
      injection H2 as <-; cbn [norm_status];
      rewrite ?(lookup_insert_ne _ (py "taille")) by key_neq;
      rewrite lookup_insert_eq, Hfix; do 2 f_equal; by apply insert_id;
      rewrite ?(lookup_insert_ne _ (py "taille")) by key_neq;
      rewrite lookup_insert_eq. }
  cbn [bind]. by eapply norm_taille_idem.
Qed.

Lemma norm_membrane_idem v v' : norm_membrane v = Ok v' -> norm_membrane v' = Ok v'.
Proof.
  destruct v; try discriminate. intros [= <-]. cbn [norm_membrane].
  by rewrite code_membrane_idem.
Qed.

Lemma norm_epaisseur_idem v v' :
  norm_epaisseur v = Ok v' -> norm_epaisseur v' = Ok v'.
Proof. unfold norm_epaisseur. intros [= <-]. by destruct v. Qed.

Lemma field_norm_idem k v v' : field_norm k v = Ok v' -> field_norm k v' = Ok v'.
Proof.
  unfold field_norm. repeat case_decide;
    eauto using norm_status_idem, norm_oedeme_idem, norm_membrane_idem,
      norm_epaisseur_idem.
Qed.

Lemma field_norm_default k dv :
  default_map !! k = Some dv -> field_norm k dv = Ok dv.
Proof.
  intros H. apply elem_of_list_to_map_2, list_elem_of_In in H.
  cbn [default_eye_items In] in H.
  repeat (destruct H as [[= <- <-]|H]; [by vm_compute|]). done.
Qed.

Lemma update_key_fix k f e :
  match e !! k with Some v => f v = Ok v | None => True end ->
  update_key k f e = Ok e.
Proof.
  unfold update_key. destruct (e !! k) as [v|] eqn:E; [|done].
  intros ->. cbn [bind]. by rewrite insert_id.
Qed.

Lemma eye_steps_fixed e e' k :
  eye_steps e = Ok e' ->
  match e' !! k with
  | Some v' => field_norm k v' = Ok v'
  | None => default_map !! k = None
  end.
Proof.
  intros H. pose proof (eye_steps_lookup e e' k H) as L.
  destruct (e !! k).
  - destruct L as (v' & Hf & ->). by eapply field_norm_idem.
  - rewrite L. destruct (default_map !! k) eqn:E; [|done].
    by apply field_norm_default.
Qed.

Lemma eye_steps_idem e e' : eye_steps e = Ok e' -> eye_steps e' = Ok e'.
Proof.
  intros H. pose proof (fun k => eye_steps_fixed e e' k H) as F.
  assert (forall k f, f = field_norm k -> update_key k f e' = Ok e') as U.
  { intros k f ->. apply update_key_fix. specialize (F k).
    by destruct (e' !! k). }
  unfold eye_steps.
  rewrite (U (py "dril")) by reflexivity. cbn [bind].
  rewrite (U (py "oedeme")) by reflexivity. cbn [bind].
  rewrite (U (py "mle")) by reflexivity. cbn [bind].
  rewrite (U (py "ze")) by reflexivity. cbn [bind].
  rewrite (U (py "points_hyperreflectifs")) by reflexivity. cbn [bind].
  rewrite (U (py "epaisseur_retinienne")) by reflexivity. cbn [bind].
  f_equal. apply map_eq. intros k. rewrite lookup_union. specialize (F k).
  destruct (e' !! k), (default_map !! k); done.
Qed.

Lemma eye_steps_default : eye_steps default_map = Ok default_map.
Proof. by vm_compute. Qed.

Lemma process_idem x y :
  process_gpt_response x = Ok y -> process_gpt_response y = Ok y.
Proof.
  intros H. apply process_inv in H as (m & -> & H).
  destruct (has_key m (py "error")) eqn:He; [subst y; by vm_compute|].
  destruct H as (m' & -> & L & R & O).
  assert (forall eye, eye_out m m' eye -> eye_step eye m' = Ok m') as S.
  { intros eye Hout. unfold eye_out in Hout. unfold eye_step.
    destruct (m !! eye).
    - destruct Hout as (e & e' & -> & Hs & Hl). rewrite Hl.
      rewrite (eye_steps_idem _ _ Hs). cbn [bind].
      f_equal. by apply insert_id.
    - rewrite Hout. unfold default_eye, dict. fold default_map.
      rewrite eye_steps_default. cbn [bind]. f_equal. by apply insert_id. }
  rewrite process_dict.
  unfold has_key in *. rewrite O by key_neq.
  destruct (m !! py "error"); [discriminate|].
  rewrite (S _ L). cbn [bind]. by rewrite (S _ R).
Qed.

(** *** Reading one eye of the outcome *)

Lemma eyes_cases eye : In eye eyes -> eye = py "left_eye" \/ eye = py "right_eye".
Proof. cbn. intuition. Qed.

Lemma process_eye_present m eye e out :
  In eye eyes -> has_key m (py "error") = false ->
  m !! eye = Some (JObj e) ->
  process_gpt_response (JObj m) = Ok out ->
  exists e', field out eye = Some (JObj e') /\ eye_steps e = Ok e'.
Proof.
  intros Heye Herr Hm H. apply process_inv in H as (m0 & [= <-] & H).
  rewrite Herr in H. destruct H as (m' & -> & L & R & _).
  apply eyes_cases in Heye as [-> | ->].
  - unfold eye_out in L. rewrite Hm in L.
    destruct L as (e0 & e' & [= <-] & Hs & Hl). eauto.
  - unfold eye_out in R. rewrite Hm in R.
    destruct R as (e0 & e' & [= <-] & Hs & Hl). eauto.
Qed.

Lemma process_eye_absent m eye out :
  In eye eyes -> m !! eye = None ->
  process_gpt_response (JObj m) = Ok out ->
  field out eye = Some default_eye.
Proof.
  intros Heye Hm H. apply process_inv in H as (m0 & [= <-] & H).
  destruct (has_key m (py "error")).
  - subst out. by apply eyes_cases in Heye as [-> | ->]; vm_compute.
  - destruct H as (m' & -> & L & R & _).
    apply eyes_cases in Heye as [-> | ->].
    + unfold eye_out in L. by rewrite Hm in L.
    + unfold eye_out in R. by rewrite Hm in R.
Qed.

(** Either way the outcome holds a dict under each eye. *)
Lemma process_eye_dict_out response out eye :
  In eye eyes -> process_gpt_response response = Ok out ->
  exists e', field out eye = Some (JObj e')
    /\ (e' = default_map \/ exists e, eye_steps e = Ok e').
Proof.
  intros Heye H. pose proof H as H0.
  apply process_inv in H as (m & -> & H).
  destruct (m !! eye) as [v|] eqn:Hm.
  - destruct (has_key m (py "error")) eqn:Herr.
    + subst out. exists default_map. split; [|by left].
      by apply eyes_cases in Heye as [-> | ->]; vm_compute.
    + destruct H as (m' & -> & L & R & _).
      apply eyes_cases in Heye as [-> | ->].
      * unfold eye_out in L. rewrite Hm in L.
        destruct L as (e0 & e' & -> & Hs & Hl). eauto.
      * unfold eye_out in R. rewrite Hm in R.
        destruct R as (e0 & e' & -> & Hs & Hl). eauto.
  - exists default_map. split; [|by left].
    by apply (process_eye_absent m).
Qed.

Lemma default_map_keys key :
  In key (map fst default_eye_items) -> is_Some (default_map !! key).
Proof.
  cbn [default_eye_items map fst In]. intros H.
  repeat (destruct H as [<-|H]; [by vm_compute; eauto|]). done.
Qed.

Lemma eye_steps_keys e e' key :
  eye_steps e = Ok e' -> In key (map fst default_eye_items) ->
  is_Some (e' !! key).
Proof.
  intros H Hk. pose proof (eye_steps_lookup e e' key H) as L.
  destruct (e !! key).
  - destruct L as (v' & _ & ->). eauto.
  - rewrite L. by apply default_map_keys.
Qed.





(** *** The status, size and membrane values *)

Lemma status_fields_label_like key present absent :
  In (key, present, absent) status_fields ->
  label_like present /\ label_like absent.
Proof.
  cbn [status_fields In].
  intros [[= <- <- <-]|[[= <- <- <-]|[[= <- <- <-]|[]]]];
    split; eexists _, _; (split; [by vm_compute|]); split; auto.
Qed.

Lemma code_status_spec present absent raw :
  label_like present -> label_like absent ->
  code_status present absent raw
  = if bool_decide (lower raw = lower present) then present
    else if bool_decide (lower raw = lower absent) then absent
    else if contains (py "present") (lower raw) then present else absent.
Proof.
  intros Hp Ha. unfold code_status, in_labels, str_eqb. cbn [existsb].
  rewrite contains_present_capitalize.
  pose proof (capitalize_eq_label raw present Hp) as Ep.
  pose proof (capitalize_eq_label raw absent Ha) as Ea.
  repeat case_bool_decide; cbn [orb]; try tauto; reflexivity.
Qed.

Lemma field_norm_status_value key present absent d raw v' :
  In (key, present, absent) status_fields ->
  d !! py "status" = Some (JStr raw) ->
  field_norm key (JObj d) = Ok v' ->
  exists d', v' = JObj d'
    /\ d' !! py "status" = Some (JStr (code_status present absent raw)).
Proof.
  cbn [status_fields In].
  intros [[= <- <- <-]|[[= <- <- <-]|[[= <- <- <-]|[]]]] Hd.
  - change (field_norm (py "dril"))
      with (norm_status (py "Présente") (py "Absente")).
    cbn [norm_status]. rewrite Hd. intros [= <-].
    eexists. split; [done|]. by rewrite lookup_insert_eq.
  - change (field_norm (py "oedeme")) with norm_oedeme.
    unfold norm_oedeme. cbn [norm_status]. rewrite Hd. cbn [bind norm_taille].
    rewrite lookup_insert_ne by key_neq.
    destruct (d !! py "taille") as [[]|]; try discriminate; intros [= <-];
      eexists; (split; [done|]);
      rewrite ?(lookup_insert_ne _ (py "taille")) by key_neq;
      by rewrite lookup_insert_eq.
  - change (field_norm (py "points_hyperreflectifs"))
      with (norm_status (py "Présents") (py "Absents")).
    cbn [norm_status]. rewrite Hd. intros [= <-].
    eexists. split; [done|]. by rewrite lookup_insert_eq.
Qed.



(** *** Around the status of an entry *)

Lemma field_norm_status_siblings key present absent d v' k :
  In (key, present, absent) status_fields ->
  field_norm key (JObj d) = Ok v' ->
  k <> py "status" -> k <> py "taille" ->
  exists d', v' = JObj d' /\ d' !! k = d !! k.
Proof.
  cbn [status_fields In].
  intros [[= <- <- <-]|[[= <- <- <-]|[[= <- <- <-]|[]]]] Hf Ns Nt.
  - change (field_norm (py "dril"))
      with (norm_status (py "Présente") (py "Absente")) in Hf.
    cbn [norm_status] in Hf.
    destruct (d !! py "status") as [[]|]; try discriminate.
    injection Hf as <-. eexists. split; [done|]. by rewrite lookup_insert_ne.
  - change (field_norm (py "oedeme")) with norm_oedeme in Hf.
    unfold norm_oedeme in Hf. cbn [norm_status] in Hf.
    destruct (d !! py "status") as [[]|]; try discriminate.
    cbn [bind norm_taille] in Hf.
    destruct (_ !! py "taille") as [[]|]; try discriminate;
      injection Hf as <-; eexists; (split; [done|]);
      by rewrite ?(lookup_insert_ne _ (py "taille")),
                 ?(lookup_insert_ne _ (py "status")).
  - change (field_norm (py "points_hyperreflectifs"))
      with (norm_status (py "Présents") (py "Absents")) in Hf.
    cbn [norm_status] in Hf.
    destruct (d !! py "status") as [[]|]; try discriminate.
    injection Hf as <-. eexists. split; [done|]. by rewrite lookup_insert_ne.
Qed.

Lemma eye_out_same m1 m2 m1' m2' eye :
  m1 !! eye = m2 !! eye -> eye_out m1 m1' eye -> eye_out m2 m2' eye ->
  m1' !! eye = m2' !! eye.
Proof.
  unfold eye_out. intros <-. destruct (m1 !! eye).
  - intros (e & e' & -> & Hs & ->) (e0 & e0' & [= <-] & Hs0 & ->). congruence.
  - congruence.
Qed.

Lemma process_missing_status m e d :
  m !! py "error" = None ->
  m !! py "left_eye" = Some (JObj e) ->
  e !! py "dril" = Some (JObj d) -> d !! py "status" = None ->
  process_gpt_response (JObj m) = Raise KeyError.
Proof.
  intros Herr Hm He Hd. rewrite process_dict. unfold has_key. rewrite Herr.
  unfold eye_step. rewrite Hm. unfold eye_steps, update_key. rewrite He.
  cbn [norm_status]. by rewrite Hd.
Qed.

Lemma process_eye_not_dict m v :
  m !! py "error" = None ->
  m !! py "left_eye" = Some v -> is_dict v = false ->
  process_gpt_response (JObj m) = Raise TypeError.
Proof.
  intros Herr Hm Hv. rewrite process_dict. unfold has_key. rewrite Herr.
  unfold eye_step. rewrite Hm. by destruct v.
Qed.

End PureFacts.

(** ** Lemmas on the object-level embedding *)

Module HeapFacts.
Import Heap Template Frame.
Open Scope heap_scope.

#[local] Arguments bind : simpl never.
#[local] Arguments alloc : simpl never.
#[local] Arguments read : simpl never.
#[local] Arguments write : simpl never.
#[local] Arguments ret : simpl never.
#[local] Arguments raise : simpl never.
#[local] Arguments deepcopy : simpl never.

Lemma alloc_app h t o :
  alloc o (h ++ t) = (Ret (VRef (length h + length t)), h ++ (t ++ [o])).
Proof. unfold alloc. by rewrite length_app, <- app_assoc. Qed.

Lemma read_app_new h t i :
  read (length h + i) (h ++ t)
  = match t !! i with Some o => (Ret o, h ++ t) | None => (Stuck, h ++ t) end.
Proof.
  unfold read. rewrite lookup_app_r by lia.
  by replace (length h + i - length h) with i by lia.
Qed.

Lemma write_app_new h t i o :
  write (length h + i) o (h ++ t)
  = if i <? length t then (Ret tt, h ++ <[i := o]> t) else (Stuck, h ++ t).
Proof.
  unfold write. rewrite length_app.
  destruct (Nat.ltb_spec i (length t)), (Nat.ltb_spec (length h + i) (length h + length t));
    try lia; [|done].
  rewrite insert_app_r_alt by lia.
  by replace (length h + i - length h) with i by lia.
Qed.

Lemma read_app_old h t l o :
  h !! l = Some o -> read l (h ++ t) = (Ret o, h ++ t).
Proof. intros H. unfold read. by rewrite lookup_app_l_Some with (x := o). Qed.


Lemma bind_bind {A B C} (c : M A) (f : A -> M B) (g : B -> M C) h :
  bind (bind c f) g h = bind c (fun a => bind (f a) g) h.
Proof. unfold bind. by destruct (c h) as [[]]. Qed.

Lemma bind_ret {A B} (a : A) (f : A -> M B) h : bind (ret a) f h = f a h.
Proof. reflexivity. Qed.

Lemma bind_raise {A B} e (f : A -> M B) h : bind (raise e) f h = (Exn e, h).
Proof. reflexivity. Qed.

Lemma bind_alloc {B} o (f : val -> M B) h t :
  bind (alloc o) f (h ++ t) = f (VRef (length h + length t)) (h ++ (t ++ [o])).
Proof. unfold bind. by rewrite alloc_app. Qed.

Lemma bind_read_new {B} i (f : obj -> M B) h t :
  bind (read (length h + i)) f (h ++ t)
  = match t !! i with Some o => f o (h ++ t) | None => (Stuck, h ++ t) end.
Proof. unfold bind. rewrite read_app_new. by destruct (t !! i). Qed.

Lemma bind_write_new {B} i o (f : unit -> M B) h t :
  bind (write (length h + i) o) f (h ++ t)
  = if i <? length t then f tt (h ++ <[i := o]> t) else (Stuck, h ++ t).
Proof. unfold bind. rewrite write_app_new. by destruct (i <? length t). Qed.

Lemma bind_read_old {B} l o (f : obj -> M B) h t :
  h !! l = Some o -> bind (read l) f (h ++ t) = f o (h ++ t).
Proof. intros H. unfold bind. by rewrite (read_app_old _ _ _ _ H). Qed.


Ltac key_neq :=
  let H := fresh in intro H; vm_compute in H; discriminate H.

Ltac eval_keys :=
  repeat match goal with
    | |- context [str_eqb (py ?a) (py ?b)] =>
        let v := eval vm_compute in (str_eqb (py a) (py b)) in
        change (str_eqb (py a) (py b)) with v
    end.

Lemma deepcopy_ref depth l :
  deepcopy (S depth) (VRef l)
  = (o <- read l ;;
     match o with
     | ODict items =>
         items' <- map_each items
                     (fun kv => v' <- deepcopy depth (snd kv) ;; ret (fst kv, v')) ;;
         alloc (ODict items')
     | OList xs => xs' <- map_each xs (deepcopy depth) ;; alloc (OList xs')
     end).
Proof. reflexivity. Qed.

Lemma deepcopy_str depth s : deepcopy depth (VStr s) = ret (VStr s).
Proof. by destruct depth. Qed.

Ltac heap_step :=
  first [ rewrite bind_bind | rewrite bind_ret | rewrite bind_raise
        | rewrite bind_alloc | rewrite bind_read_new | rewrite bind_write_new
        | rewrite deepcopy_ref | rewrite deepcopy_str ];
  cbn; eval_keys; cbn.

Lemma build_default_structure_run h :
  build_default_structure h = (Ret (VRef (length h + 6)), h ++ template (length h)).
Proof.
  rewrite <- (app_nil_r h) at 1.
  unfold build_default_structure, eye_literal.
  repeat heap_step. reflexivity.
Qed.

#[local] Arguments template : simpl never.


Lemma bind_run {A B} (c : M A) (f : A -> M B) h a h' :
  c h = (Ret a, h') -> bind c f h = f a h'.
Proof. intros H. unfold bind. by rewrite H. Qed.

Lemma bind_const_ret {A B} (c : M A) (b : B) h v h' :
  bind c (fun _ => ret b) h = (Ret v, h') -> v = b.
Proof.
  unfold bind, ret. destruct (c h) as [[a| |] h1]; try discriminate.
  by intros [= <- _].
Qed.

Lemma assoc_set_eq k v items : assoc k (assoc_set k v items) = Some v.
Proof.
  induction items as [|[k' v'] items IH]; cbn.
  - unfold str_eqb. by rewrite bool_decide_eq_true_2.
  - destruct (str_eqb k k') eqn:E; cbn; [|by rewrite E].
    unfold str_eqb. by rewrite bool_decide_eq_true_2.
Qed.

Lemma assoc_set_ne k k' v items :
  k <> k' -> assoc k' (assoc_set k v items) = assoc k' items.
Proof.
  intros Hne. induction items as [|[k0 v0] items IH]; cbn.
  - unfold str_eqb. rewrite bool_decide_eq_false_2 by congruence. done.
  - unfold str_eqb. destruct (bool_decide (k = k0)) eqn:E; cbn; unfold str_eqb.
    + apply bool_decide_eq_true_1 in E as <-.
      rewrite !bool_decide_eq_false_2 by congruence. done.
    + by rewrite IH.
Qed.


(** Without the marker the value returned is the argument itself. *)
Lemma process_same_object h l items v h' :
  h !! l = Some (ODict items) -> assoc (py "error") items = None ->
  process_gpt_response (VRef l) h = (Ret v, h') -> v = VRef l.
Proof.
  intros Hl Herr. unfold process_gpt_response.
  rewrite (bind_run _ _ _ _ _ (build_default_structure_run h)).
  cbn. rewrite bind_bind, (bind_read_old _ _ _ _ _ Hl). rewrite Herr.
  rewrite bind_ret. cbn [negb]. apply bind_const_ret.
Qed.



(** *** The frame of a call *)

Lemma dict_frame_refl items : dict_frame items items.
Proof. intros k v H. split; [by rewrite H | done]. Qed.

Lemma dict_frame_trans a b c : dict_frame a b -> dict_frame b c -> dict_frame a c.
Proof.
  intros Hab Hbc k v H. destruct (Hab k v H) as [[w Hw] Hv]. split.
  - by destruct (Hbc k w Hw).
  - intros Hk. destruct (Hbc k v (Hv Hk)) as [_ Hc]. auto.
Qed.

Lemma frame_refl h : frame h h.
Proof.
  intros l [items|xs] H; [|done]. exists items. split; [done|].
  apply dict_frame_refl.
Qed.

Lemma frame_trans a b c : frame a b -> frame b c -> frame a c.
Proof.
  intros Hab Hbc l o H. specialize (Hab l o H). destruct o as [items|xs].
  - destruct Hab as (items1 & H1 & F1). specialize (Hbc l _ H1).
    destruct Hbc as (items2 & H2 & F2). exists items2. split; [done|].
    by eapply dict_frame_trans.
  - exact (Hbc l _ Hab).
Qed.

Lemma frame_app h t : frame h (h ++ t).
Proof.
  intros l [items|xs] H.
  - exists items. split; [by apply lookup_app_l_Some | apply dict_frame_refl].
  - by apply lookup_app_l_Some.
Qed.

Lemma frame_insert h l items items' :
  h !! l = Some (ODict items) -> dict_frame items items' ->
  frame h (<[l := ODict items']> h).
Proof.
  intros Hl F l' o H. destruct (decide (l = l')) as [<-|Hne].
  - rewrite Hl in H. injection H as <-. exists items'. split; [|done].
    apply list_lookup_insert_eq. by eapply lookup_lt_Some.
  - rewrite list_lookup_insert_ne by done. by apply frame_refl.
Qed.

(** An assignment to one of the written keys. *)
Lemma dict_frame_set_written k v items :
  in_labels k written_keys = true -> dict_frame items (assoc_set k v items).
Proof.
  intros Hk k' v' H. destruct (decide (k = k')) as [<-|Hne].
  - rewrite assoc_set_eq. split; [eauto | congruence].
  - rewrite assoc_set_ne by done. split; [by rewrite H | done].
Qed.

(** An assignment to a key the dict does not have. *)
Lemma dict_frame_set_absent k v items :
  assoc k items = None -> dict_frame items (assoc_set k v items).
Proof.
  intros Hk k' v' H. destruct (decide (k = k')) as [<-|Hne]; [congruence|].
  rewrite assoc_set_ne by done. split; [by rewrite H | done].
Qed.

Lemma readonly_framed {A} (c : M A) : readonly c -> framed c.
Proof. intros H h. rewrite H. apply frame_refl. Qed.

Lemma framed_ret {A} (a : A) : framed (ret a).
Proof. intros h. apply frame_refl. Qed.

Lemma framed_raise {A} e : framed (@raise A e).
Proof. intros h. apply frame_refl. Qed.

Lemma framed_alloc o : framed (alloc o).
Proof. intros h. apply frame_app. Qed.

Lemma framed_bind {A B} (c : M A) (f : A -> M B) :
  framed c -> (forall a, framed (f a)) -> framed (bind c f).
Proof.
  intros Hc Hf h. unfold bind. specialize (Hc h).
  destruct (c h) as [[a| |] h1]; cbn in *; try done.
  eapply frame_trans; [exact Hc | apply Hf].
Qed.

Lemma readonly_read l : readonly (read l).
Proof. intros h. unfold read. by destruct (h !! l). Qed.

Lemma readonly_bind {A B} (c : M A) (f : A -> M B) :
  readonly c -> (forall a, readonly (f a)) -> readonly (bind c f).
Proof.
  intros Hc Hf h. unfold bind. specialize (Hc h).
  destruct (c h) as [[a| |] h1]; cbn in *; try done.
  subst h1. apply Hf.
Qed.

Lemma readonly_py_in k c : readonly (py_in k c).
Proof.
  destruct c; try done. apply readonly_bind; [apply readonly_read|].
  by intros [].
Qed.

Lemma readonly_py_getitem c k : readonly (py_getitem c k).
Proof.
  destruct c; try done. apply readonly_bind; [apply readonly_read|].
  intros []; [|done]. by destruct (assoc k items).
Qed.

Lemma readonly_is_dict c : readonly (is_dict c).
Proof.
  destruct c; try done. apply readonly_bind; [apply readonly_read|]. done.
Qed.

Lemma readonly_py_items c : readonly (py_items c).
Proof.
  destruct c; try done. apply readonly_bind; [apply readonly_read|].
  by intros [].
Qed.

Lemma readonly_py_lower v : readonly (py_lower v).
Proof. by destruct v. Qed.

Lemma readonly_py_capitalize v : readonly (py_capitalize v).
Proof. by destruct v. Qed.

Lemma write_frame h l items items' :
  h !! l = Some (ODict items) -> dict_frame items items' ->
  frame h (snd (write l (ODict items') h)).
Proof.
  intros Hl F. unfold write.
  destruct (Nat.ltb_spec l (length h)); [|apply frame_refl].
  by eapply frame_insert.
Qed.

Lemma bind_read_run {B} l (f : obj -> M B) h :
  bind (read l) f h
  = match h !! l with Some o => f o h | None => (Stuck, h) end.
Proof. unfold bind, read. by destruct (h !! l). Qed.

Lemma framed_setitem_written c k v :
  in_labels k written_keys = true -> framed (py_setitem c k v).
Proof.
  intros Hk h. destruct c; try apply frame_refl.
  unfold py_setitem. rewrite bind_read_run.
  destruct (h !! l) as [[items|xs]|] eqn:Hl; try apply frame_refl.
  apply (write_frame _ _ items); [done|]. by apply dict_frame_set_written.
Qed.

(** [if k not in c: c[k] = v], the value being read without a change of
    the store. *)
Lemma framed_guarded_setitem c k (value : M val) (rest : M unit) :
  readonly value -> framed rest ->
  framed (has <- py_in k c ;;
          if negb has then v <- value ;; py_setitem c k v else rest).
Proof.
  intros Hv Hrest h.
  destruct c; try apply frame_refl.
  - (* a string: the assignment raises *)
    unfold py_in. rewrite bind_ret.
    destruct (contains k s); cbn [negb]; [apply Hrest|].
    unfold bind at 1. pose proof (Hv h) as Hv'.
    destruct (value h) as [[v| |] h1]; cbn [snd] in Hv'; subst h1;
      apply frame_refl.
  - unfold py_in. rewrite bind_bind, bind_read_run.
    destruct (h !! l) as [[items|xs]|] eqn:Hl; try apply frame_refl.
    + rewrite bind_ret.
      destruct (assoc k items) eqn:Hk; cbn [negb]; [apply Hrest|].
      unfold bind at 1. pose proof (Hv h) as Hv'.
      destruct (value h) as [[v| |] h1]; cbn [snd] in Hv'; subst h1;
        try apply frame_refl.
      unfold py_setitem. rewrite bind_read_run, Hl.
      apply (write_frame _ _ items); [done|].
      by apply dict_frame_set_absent.
    + rewrite bind_ret.
      destruct (existsb _ xs); cbn [negb]; [apply Hrest|].
      unfold bind at 1. pose proof (Hv h) as Hv'.
      destruct (value h) as [[v| |] h1]; cbn [snd] in Hv'; subst h1;
        try apply frame_refl.
      unfold py_setitem. rewrite bind_read_run, Hl.
      apply frame_refl.
Qed.

Lemma framed_for_each {A} (xs : list A) (body : A -> M unit) :
  (forall x, framed (body x)) -> framed (Heap.for_each xs body).
Proof.
  intros Hb. induction xs as [|x xs IH]; cbn [Heap.for_each].
  - apply framed_ret.
  - apply framed_bind; [apply Hb | intros _; apply IH].
Qed.

Lemma framed_map_each {A B} (xs : list A) (f : A -> M B) :
  (forall x, framed (f x)) -> framed (map_each xs f).
Proof.
  intros Hf. induction xs as [|x xs IH]; cbn [map_each].
  - apply framed_ret.
  - apply framed_bind; [apply Hf | intros y].
    apply framed_bind; [apply IH | intros ys; apply framed_ret].
Qed.

Lemma framed_deepcopy depth v : framed (deepcopy depth v).
Proof.
  revert v. induction depth as [|depth IH]; intros v.
  - destruct v; try apply framed_ret. apply framed_raise.
  - destruct v; try apply framed_ret. rewrite deepcopy_ref.
    apply framed_bind; [apply readonly_framed, readonly_read|].
    intros [items|xs].
    + apply framed_bind; [|intros ?; apply framed_alloc].
      apply framed_map_each. intros kv.
      apply framed_bind; [apply IH | intros ?; apply framed_ret].
    + apply framed_bind; [|intros ?; apply framed_alloc].
      apply framed_map_each. apply IH.
Qed.

Lemma framed_build_default_structure : framed build_default_structure.
Proof. intros h. rewrite build_default_structure_run. apply frame_app. Qed.

Ltac framed_step :=
  first
    [ apply framed_ret
    | apply framed_raise
    | apply framed_alloc
    | apply readonly_framed;
      first [ apply readonly_py_in | apply readonly_py_getitem
            | apply readonly_is_dict | apply readonly_py_items
            | apply readonly_py_lower | apply readonly_py_capitalize
            | apply readonly_read ]
    | apply framed_setitem_written; by vm_compute
    | apply framed_bind; [|intros ?]
    | match goal with
      | |- framed (if ?b then _ else _) => destruct b
      end ].

Lemma framed_standardize_status present absent d :
  framed (standardize_status present absent d).
Proof. unfold standardize_status. repeat framed_step. Qed.

Lemma framed_standardize_dril eye_data : framed (standardize_dril eye_data).
Proof.
  unfold standardize_dril.
  repeat first [apply framed_standardize_status | framed_step].
Qed.

Lemma framed_standardize_oedeme eye_data : framed (standardize_oedeme eye_data).
Proof.
  unfold standardize_oedeme.
  repeat first [apply framed_standardize_status | framed_step].
Qed.

Lemma framed_standardize_points eye_data : framed (standardize_points eye_data).
Proof.
  unfold standardize_points.
  repeat first [apply framed_standardize_status | framed_step].
Qed.

Lemma framed_standardize_membrane eye_data field :
  In field [py "mle"; py "ze"] -> framed (standardize_membrane eye_data field).
Proof.
  cbn [In]. intros [<-|[<-|[]]]; unfold standardize_membrane;
    repeat framed_step.
Qed.

Lemma framed_format_epaisseur eye_data : framed (format_epaisseur eye_data).
Proof. unfold format_epaisseur. repeat framed_step. Qed.

Lemma framed_add_missing eye_data item : framed (add_missing eye_data item).
Proof.
  unfold add_missing.
  apply (framed_guarded_setitem eye_data (fst item) (ret (snd item)) (ret tt)).
  - done.
  - apply framed_ret.
Qed.

Lemma framed_process_eye default_structure response eye :
  In eye [py "left_eye"; py "right_eye"] ->
  framed (process_eye default_structure response eye).
Proof.
  intros Heye. unfold process_eye.
  apply (framed_guarded_setitem response eye
           (py_getitem default_structure eye)).
  - apply readonly_py_getitem.
  - cbn [In] in Heye. cbn [Heap.for_each].
    repeat first
      [ apply framed_standardize_dril | apply framed_standardize_oedeme
      | apply framed_standardize_points | apply framed_format_epaisseur
      | apply framed_standardize_membrane; cbn [In]; tauto
      | apply framed_for_each; intros ?; apply framed_add_missing
      | framed_step ].
Qed.

(** The frame of a call, whatever the argument and the store. *)
Lemma framed_process_gpt_response response :
  framed (process_gpt_response response).
Proof.
  unfold process_gpt_response.
  apply framed_bind; [apply framed_build_default_structure | intros ds].
  apply framed_bind; [apply readonly_framed, readonly_py_in | intros has].
  destruct has.
  - repeat framed_step.
  - apply framed_bind; [|intros ?; apply framed_ret].
    cbn [Heap.for_each].
    apply framed_bind; [apply framed_process_eye; cbn [In]; tauto | intros _].
    apply framed_bind; [apply framed_process_eye; cbn [In]; tauto | intros _].
    apply framed_ret.
Qed.

End HeapFacts.

(** ** The two embeddings give the same outcome on sample stores *)

Module AgreeFacts.
Import Heap Agree.

Example agree_eyes_present :
  let h := [ ODict [ (py "left_eye", VRef 1); (py "right_eye", VRef 3) ];
             ODict [ (py "dril", VRef 2);
                     (py "mle", VStr (py "Partielle"));
                     (py "epaisseur_retinienne", VStr (py "250um central")) ];
             ODict [ (py "status", VStr (py "present")) ];
             ODict [ (py "oedeme", VRef 4); (py "ze", VStr (py "?")) ];
             ODict [ (py "status", VStr (py "PRÉSENT"));
                     (py "taille", VStr (py ">200")) ] ] in
  heap_outcome h (VRef 0) = pure_outcome h (VRef 0)
  /\ exists j, pure_outcome h (VRef 0) = Some (Ok j).
Proof. split; [by vm_compute | eexists; by vm_compute]. Qed.

Example agree_error_marker :
  let h := [ ODict [ (py "error", VStr (py "boom")); (py "left_eye", VInt 1) ] ] in
  heap_outcome h (VRef 0) = pure_outcome h (VRef 0)
  /\ pure_outcome h (VRef 0) = Some (Ok Pure.default_structure).
Proof. split; by vm_compute. Qed.

Example agree_missing_status :
  let h := [ ODict [ (py "right_eye", VRef 1) ];
             ODict [ (py "points_hyperreflectifs", VRef 2) ];
             ODict [ (py "nombre", VStr (py "3")) ] ] in
  heap_outcome h (VRef 0) = pure_outcome h (VRef 0)
  /\ pure_outcome h (VRef 0) = Some (Raise KeyError).
Proof. split; by vm_compute. Qed.

Example agree_list_argument :
  let h := [ OList [ VStr (py "error") ] ] in
  heap_outcome h (VRef 0) = pure_outcome h (VRef 0)
  /\ pure_outcome h (VRef 0) = Some (Raise TypeError).
Proof. split; by vm_compute. Qed.

End AgreeFacts.

(** ** Lemmas on the application-level embedding *)

Module AppFacts.
Import Pure Norm PureFacts App Form.

(** *** Occurrences and [split] *)

Lemma starts_with_drop sep s :
  starts_with sep s = true -> s = sep ++ drop (length sep) s.
Proof.
  revert s. induction sep as [|a sep IH]; intros s H; [done|].
  destruct s as [|b s]; [discriminate|]. cbn in H.
  apply andb_true_iff in H as [Hab Hs]. apply N.eqb_eq in Hab as ->.
  cbn. f_equal. by apply IH.
Qed.

Lemma starts_with_app sep t : starts_with sep (sep ++ t) = true.
Proof.
  induction sep as [|a sep IH]; [done|]. cbn. by rewrite N.eqb_refl, IH.
Qed.

Lemma starts_with_app_r sep s t :
  starts_with sep s = true -> starts_with sep (s ++ t) = true.
Proof.
  revert s. induction sep as [|a sep IH]; intros s H; [done|].
  destruct s as [|b s]; [discriminate|]. cbn in *.
  apply andb_true_iff in H as [-> Hs]. cbn. by apply IH.
Qed.

Lemma contains_app_r p s t : contains p s = true -> contains p (s ++ t) = true.
Proof.
  induction s as [|c s IH]; cbn [contains app].
  - rewrite orb_false_r. intros H. destruct p; [by destruct t|discriminate].
  - intros H. apply orb_true_iff in H as [H|H].
    + change (c :: s ++ t) with ((c :: s) ++ t).
      by rewrite (starts_with_app_r _ _ t H).
    + rewrite (IH H). apply orb_true_r.
Qed.

Lemma contains_app_l p s t : contains p t = true -> contains p (s ++ t) = true.
Proof.
  intros H. induction s as [|c s IH]; [done|].
  cbn [contains app]. rewrite IH. apply orb_true_r.
Qed.

Lemma contains_starts p s : starts_with p s = true -> contains p s = true.
Proof. destruct s; cbn [contains]; by intros ->. Qed.

Lemma contains_app_sep sep a b : contains sep (a ++ sep ++ b) = true.
Proof. apply contains_app_l, contains_starts, starts_with_app. Qed.

(** [cut] finds an occurrence exactly when there is one. *)
Lemma cut_None sep s : cut sep s = None <-> contains sep s = false.
Proof.
  induction s as [|c s IH]; cbn [cut contains].
  - destruct (starts_with sep []); cbn; split; congruence.
  - destruct (starts_with sep (c :: s)); cbn; [split; congruence|].
    destruct (cut sep s) as [[a b]|]; split; intros H; try done.
    + apply IH in H. discriminate.
    + by apply IH.
Qed.

(** The occurrence [cut] finds is the leftmost one. *)
Lemma cut_Some sep s a b :
  sep <> [] -> cut sep s = Some (a, b) ->
  s = a ++ sep ++ b /\ contains sep a = false.
Proof.
  intros Hsep. revert a b. induction s as [|c s IH]; intros a b; cbn [cut].
  - destruct sep; [done|]. discriminate.
  - destruct (starts_with sep (c :: s)) eqn:Hst.
    + intros [= <- <-]. split; [by apply starts_with_drop|].
      destruct sep; [done|reflexivity].
    + destruct (cut sep s) as [[a' b']|] eqn:Hc; [|discriminate].
      intros [= <- <-]. destruct (IH a' b' eq_refl) as [-> Ha]. split; [done|].
      cbn [contains]. rewrite Ha, orb_false_r.
      destruct (starts_with sep (c :: a')) eqn:E; [|done].
      apply (starts_with_app_r _ _ (sep ++ b')) in E.
      cbn [app] in E. congruence.
Qed.

Lemma cut_length sep s a b :
  sep <> [] -> cut sep s = Some (a, b) -> length b < length s.
Proof.
  intros Hsep H. destruct (cut_Some sep s a b Hsep H) as [-> _].
  rewrite !length_app. destruct sep; [done|]. cbn. lia.
Qed.

(** More turns than [length s] change nothing. *)
Lemma split_fuel_enough sep s n :
  sep <> [] -> length s <= n -> split_fuel n sep s = split sep s.
Proof.
  intros Hsep. unfold split.
  assert (forall n m s, length s <= n -> length s <= m ->
            split_fuel n sep s = split_fuel m sep s) as H.
  { clear s n. induction n as [|n IH]; intros m s Hn Hm.
    - destruct s; [|cbn in Hn; lia]. destruct m; [done|].
      cbn. destruct sep; [done|reflexivity].
    - destruct m as [|m].
      + destruct s; [|cbn in Hm; lia]. cbn. destruct sep; [done|reflexivity].
      + cbn [split_fuel]. destruct (cut sep s) as [[a b]|] eqn:Hc; [|done].
        pose proof (cut_length sep s a b Hsep Hc). f_equal. apply IH; lia. }
  intros Hn. by apply H.
Qed.

Lemma split_no_occurrence sep s :
  contains sep s = false -> split sep s = [s].
Proof.
  intros H. apply cut_None in H. unfold split.
  destruct (length s); cbn; [done|]. by rewrite H.
Qed.

Lemma split_occurrence sep s a b :
  sep <> [] -> cut sep s = Some (a, b) -> split sep s = a :: split sep b.
Proof.
  intros Hsep H. unfold split at 1.
  pose proof (cut_length sep s a b Hsep H) as Hlen.
  destruct (length s) as [|n] eqn:E; [lia|].
  cbn [split_fuel]. rewrite H. f_equal. apply split_fuel_enough; [done|lia].
Qed.

Lemma split_nonempty sep s : exists p ps, split sep s = p :: ps.
Proof.
  unfold split. destruct (length s); cbn; [eauto|].
  destruct (cut sep s) as [[a b]|]; eauto.
Qed.

(** The first part of a split holds no occurrence. *)
Lemma split_first_clean sep s p ps :
  sep <> [] -> split sep s = p :: ps -> contains sep p = false.
Proof.
  intros Hsep H. destruct (cut sep s) as [[a b]|] eqn:Hc.
  - rewrite (split_occurrence sep s a b Hsep Hc) in H. injection H as <- _.
    by destruct (cut_Some sep s a b Hsep Hc).
  - apply cut_None in Hc. rewrite (split_no_occurrence _ _ Hc) in H.
    by injection H as <- _.
Qed.

(** A separator that begins with a character the text before it lacks is
    found right after that text. *)
Lemma cut_starts sep s :
  starts_with sep s = true -> cut sep s = Some ([], drop (length sep) s).
Proof. intros H. destruct s; cbn [cut]; by rewrite H. Qed.

Lemma cut_after_clean c sep a b :
  ~ In c a -> cut (c :: sep) (a ++ (c :: sep) ++ b) = Some (a, b).
Proof.
  intros Ha. induction a as [|x a IH].
  - rewrite app_nil_l, cut_starts by apply starts_with_app.
    by rewrite drop_app_length.
  - change ((x :: a) ++ (c :: sep) ++ b) with (x :: (a ++ (c :: sep) ++ b)).
    cbn [cut starts_with].
    destruct (N.eqb_spec c x) as [->|Hne]; [exfalso; apply Ha; by left|].
    cbn [andb]. rewrite IH; [done|]. intros H. apply Ha. by right.
Qed.

Lemma contains_no_first c sep s : ~ In c s -> contains (c :: sep) s = false.
Proof.
  induction s as [|x s IH]; intros H; [done|].
  cbn [contains starts_with].
  destruct (N.eqb_spec c x) as [->|Hne]; [exfalso; apply H; by left|].
  cbn. apply IH. intros Hin. apply H. by right.
Qed.

Lemma contains_single c s : contains [c] s = false <-> ~ In c s.
Proof.
  induction s as [|x s IH]; [cbn; tauto|].
  cbn [contains starts_with In]. destruct (N.eqb_spec c x) as [->|Hne]; cbn.
  - split; [discriminate | intros H; exfalso; apply H; by left].
  - rewrite IH. split; [intros H [?|?]; [congruence|done] | tauto].
Qed.

Lemma split_two_parts sep s x y :
  sep <> [] -> split sep s = [x; y] ->
  s = x ++ sep ++ y /\ contains sep x = false /\ contains sep y = false.
Proof.
  intros Hsep H. destruct (cut sep s) as [[a r]|] eqn:Hc.
  - rewrite (split_occurrence sep s a r Hsep Hc) in H. injection H as <- Hr.
    destruct (cut_Some sep s a r Hsep Hc) as [-> Ha].
    destruct (cut sep r) as [[a' r']|] eqn:Hc'.
    + rewrite (split_occurrence sep r a' r' Hsep Hc') in Hr.
      destruct (split_nonempty sep r') as (p & ps & Hp). rewrite Hp in Hr.
      discriminate.
    + apply cut_None in Hc'. rewrite (split_no_occurrence _ _ Hc') in Hr.
      by injection Hr as <-.
  - apply cut_None in Hc. rewrite (split_no_occurrence _ _ Hc) in H.
    discriminate.
Qed.

Lemma split_clean_parts c sep a b :
  ~ In c a -> contains (c :: sep) b = false ->
  split (c :: sep) (a ++ (c :: sep) ++ b) = [a; b].
Proof.
  intros Ha Hb.
  rewrite (split_occurrence (c :: sep) _ a b); [|done|by apply cut_after_clean].
  by rewrite (split_no_occurrence _ _ Hb).
Qed.

(** *** [encode_image_contents] *)

Lemma encode_image_contents_ok a b :
  contains (py ",") a = false -> contains (py ",") b = false ->
  encode_image_contents (a ++ py "," ++ b) = Done b.
Proof.
  intros Ha Hb. unfold encode_image_contents.
  change (py ",") with [44%N] in *.
  rewrite (split_clean_parts 44%N [] a b); [done| |done].
  by apply contains_single.
Qed.

Lemma encode_image_contents_inv contents b :
  encode_image_contents contents = Done b ->
  exists a, contents = a ++ py "," ++ b
    /\ contains (py ",") a = false /\ contains (py ",") b = false.
Proof.
  unfold encode_image_contents.
  destruct (split (py ",") contents) as [|x [|y [|z rest]]] eqn:E;
    try discriminate.
  intros [= <-]. exists x. by apply split_two_parts.
Qed.

(** *** [strip] keeps a piece of the text *)

Lemma lstrip_ws_suffix s : exists pre, s = pre ++ lstrip_ws s.
Proof.
  induction s as [|c s [pre IH]]; [by exists []|].
  cbn [lstrip_ws]. destruct (isspace_cp c).
  - exists (c :: pre). cbn. by f_equal.
  - by exists [].
Qed.

Lemma strip_ws_infix s : exists pre post, s = pre ++ strip_ws s ++ post.
Proof.
  unfold strip_ws. destruct (lstrip_ws_suffix s) as [pre Hpre].
  destruct (lstrip_ws_suffix (rev (lstrip_ws s))) as [q Hq].
  exists pre, (rev q). rewrite Hpre at 1. f_equal.
  apply (f_equal (@rev N)) in Hq.
  by rewrite rev_involutive, rev_app_distr in Hq.
Qed.

Lemma contains_strip_ws p s :
  contains p s = false -> contains p (strip_ws s) = false.
Proof.
  intros H. destruct (strip_ws_infix s) as (pre & post & Hs).
  destruct (contains p (strip_ws s)) eqn:E; [|done].
  rewrite Hs in H. rewrite contains_app_l in H; [done|].
  by apply contains_app_r.
Qed.

(** *** [extract_json_text] *)

Lemma contains_longer p q s :
  contains (p ++ q) s = true -> contains p s = true.
Proof.
  assert (forall s, starts_with (p ++ q) s = true -> starts_with p s = true) as Hst.
  { clear s. induction p as [|a p IH]; intros s H; [done|].
    destruct s as [|b s]; [discriminate|]. cbn in *.
    apply andb_true_iff in H as [-> H]. cbn. by apply IH. }
  induction s as [|c s IH]; cbn [contains].
  - rewrite !orb_false_r. apply Hst.
  - intros H. apply orb_true_iff in H as [H|H].
    + by rewrite (Hst _ H).
    + rewrite (IH H). apply orb_true_r.
Qed.

(** The second part of a split exists as soon as there is an
    occurrence, and a first part always exists. *)
Lemma item_1_split sep s :
  sep <> [] -> contains sep s = true -> exists p, item (split sep s) 1 = Done p.
Proof.
  intros Hsep H. destruct (cut sep s) as [[a b]|] eqn:Hc.
  - rewrite (split_occurrence sep s a b Hsep Hc).
    destruct (split_nonempty sep b) as (p & ps & ->). by exists p.
  - apply cut_None in Hc. congruence.
Qed.

Lemma item_0_split sep s : exists p, item (split sep s) 0 = Done p.
Proof. destruct (split_nonempty sep s) as (p & ps & ->). by exists p. Qed.

Lemma item_0_split_clean sep s p :
  sep <> [] -> item (split sep s) 0 = Done p -> contains sep p = false.
Proof.
  intros Hsep. destruct (split_nonempty sep s) as (x & xs & E). rewrite E.
  intros [= <-]. by eapply split_first_clean.
Qed.

Lemma extract_json_text_total text : exists t, extract_json_text text = Done t.
Proof.
  unfold extract_json_text.
  destruct (contains (py "```json") text) eqn:H1.
  - destruct (item_1_split (py "```json") text) as (after & ->); [done|done|].
    cbn [rbind].
    destruct (item_0_split (py "```") after) as (body & ->). cbn. eauto.
  - destruct (contains (py "```") text) eqn:H2; [|eauto].
    destruct (item_1_split (py "```") text) as (after & ->); [done|done|].
    cbn [rbind].
    destruct (item_0_split (py "```") after) as (body & ->). cbn. eauto.
Qed.

Lemma extract_json_text_plain text :
  contains (py "```") text = false -> extract_json_text text = Done text.
Proof.
  intros H. unfold extract_json_text. rewrite H.
  destruct (contains (py "```json") text) eqn:H1; [|done].
  change (py "```json") with (py "```" ++ py "json") in H1.
  apply contains_longer in H1. congruence.
Qed.

Lemma extract_json_text_no_fence text t :
  contains (py "```") text = true -> extract_json_text text = Done t ->
  contains (py "```") t = false.
Proof.
  intros H. unfold extract_json_text. rewrite H.
  destruct (contains (py "```json") text).
  - destruct (item (split (py "```json") text) 1) as [after|]; [|discriminate].
    cbn [rbind].
    destruct (item (split (py "```") after) 0) as [body|] eqn:E; [|discriminate].
    cbn [rbind]. intros [= <-]. apply contains_strip_ws.
    by eapply item_0_split_clean.
  - destruct (item (split (py "```") text) 1) as [after|]; [|discriminate].
    cbn [rbind].
    destruct (item (split (py "```") after) 0) as [body|] eqn:E; [|discriminate].
    cbn [rbind]. intros [= <-]. apply contains_strip_ws.
    by eapply item_0_split_clean.
Qed.

(** An answer that wraps its JSON in a json code block: the text before
    the block and the body hold no backquote, and no second json block
    follows. *)
Lemma extract_json_text_fenced pre body post :
  ~ In 96%N pre -> ~ In 96%N body ->
  contains (py "```json") (body ++ py "```" ++ post) = false ->
  extract_json_text (pre ++ py "```json" ++ body ++ py "```" ++ post)
  = Done (strip_ws body).
Proof.
  intros Hpre Hbody Hrest. unfold extract_json_text.
  rewrite contains_app_sep.
  change (py "```json") with (96%N :: [96; 96; 106; 115; 111; 110]%N) in *.
  rewrite (split_clean_parts 96%N _ pre (body ++ py "```" ++ post) Hpre Hrest).
  cbn [item lookup list_lookup rbind].
  change (py "```") with (96%N :: [96; 96]%N).
  rewrite (split_occurrence _ _ body post); [done|done|].
  by apply cut_after_clean.
Qed.

(** *** [analyze_with_gpt] *)

Lemma analyze_with_gpt_cases chat json_loads image_base64 :
  (exists message,
     analyze_with_gpt chat json_loads image_base64 = error_response message)
  \/ (exists content text parsed,
        chat image_base64 = inr (Some content)
        /\ extract_json_text (strip_ws content) = Done text
        /\ json_loads text = inr parsed
        /\ analyze_with_gpt chat json_loads image_base64 = parsed).
Proof.
  unfold analyze_with_gpt.
  destruct (chat image_base64) as [message|[content|]]; [eauto| |eauto].
  destruct (extract_json_text (strip_ws content)) as [text|] eqn:E; [|eauto].
  destruct (json_loads text) as [message|parsed] eqn:L; [eauto|].
  right. by exists content, text, parsed.
Qed.

Lemma process_error_response message :
  process_gpt_response (error_response message) = Ok default_structure.
Proof.
  unfold error_response, dict. rewrite process_dict. unfold has_key.
  cbn [list_to_map foldr]. unfold uncurry; cbn [fst snd].
  by rewrite lookup_insert_eq.
Qed.

(** *** [analyze_image] *)

Lemma rbind_done {A B} (c : result A) (f : A -> result B) b :
  rbind c f = Done b -> exists a, c = Done a /\ f a = Done b.
Proof. destruct c; cbn; [eauto|discriminate]. Qed.

Lemma lift_done {A} (c : res A) a : lift c = Done a -> c = Ok a.
Proof. destruct c; cbn; [by intros [= ->]|discriminate]. Qed.

Lemma py_getitem_field v k x : py_getitem v k = Ok x <-> field v k = Some x.
Proof.
  destruct v; cbn; try (split; discriminate).
  destruct (m !! k); split; congruence.
Qed.

Lemma main_values_inv analysis side briding decollement l :
  main_values analysis side briding decollement = Ok l ->
  exists ds os mle ze ps,
    field3 analysis (side ++ py "_eye") (py "dril") (py "status") = Some ds
    /\ field3 analysis (side ++ py "_eye") (py "oedeme") (py "status") = Some os
    /\ field2 analysis (side ++ py "_eye") (py "mle") = Some mle
    /\ field2 analysis (side ++ py "_eye") (py "ze") = Some ze
    /\ field3 analysis (side ++ py "_eye") (py "points_hyperreflectifs")
          (py "status") = Some ps
    /\ l = [ds; os; briding; mle; ze; ps; decollement].
Proof.
  unfold main_values. intros H.
  apply bind_ok in H as (eye & He & H). apply py_getitem_field in He.
  apply bind_ok in H as (dril & Hd & H). apply py_getitem_field in Hd.
  apply bind_ok in H as (ds & Hds & H). apply py_getitem_field in Hds.
  apply bind_ok in H as (oed & Ho & H). apply py_getitem_field in Ho.
  apply bind_ok in H as (os & Hos & H). apply py_getitem_field in Hos.
  apply bind_ok in H as (mle & Hm & H). apply py_getitem_field in Hm.
  apply bind_ok in H as (ze & Hz & H). apply py_getitem_field in Hz.
  apply bind_ok in H as (pts & Hp & H). apply py_getitem_field in Hp.
  apply bind_ok in H as (ps & Hps & H). apply py_getitem_field in Hps.
  injection H as <-. exists ds, os, mle, ze, ps.
  unfold field3, field2. rewrite He. cbn. rewrite Hd, Ho, Hm, Hz, Hp. cbn.
  by rewrite Hds, Hos, Hps.
Qed.

Lemma on_sides_inv f l :
  on_sides f = Ok l ->
  exists x y, f (py "left") = Ok x /\ f (py "right") = Ok y /\ l = [x; y].
Proof.
  unfold on_sides. intros H.
  apply bind_ok in H as (x & Hx & H). apply bind_ok in H as (y & Hy & H).
  injection H as <-. eauto.
Qed.

(** What [analyze_image] returns when there is an image: the values of
    the run, in the order of the result list. *)
Lemma analyze_image_inv chat json_loads format_value
    contents lb ld rb rd results :
  py_truthy contents = true ->
  analyze_image chat json_loads format_value contents lb ld rb rd = Done results ->
  exists image_base64 analysis0 a1 a2 a3 analysis ml mr nl nr tl tr ll lr el er,
    encode_contents contents = Done image_base64
    /\ process_gpt_response (analyze_with_gpt chat json_loads image_base64)
       = Ok analysis0
    /\ set_in_eye analysis0 (py "left_eye") (py "briding") (or_absent lb) = Ok a1
    /\ set_in_eye a1 (py "left_eye") (py "decollement") (or_absent ld) = Ok a2
    /\ set_in_eye a2 (py "right_eye") (py "briding") (or_absent rb) = Ok a3
    /\ set_in_eye a3 (py "right_eye") (py "decollement") (or_absent rd)
       = Ok analysis
    /\ main_values analysis (py "left") lb ld = Ok ml
    /\ main_values analysis (py "right") rb rd = Ok mr
    /\ oedeme_detail analysis (py "left") (py "nb_logette") false = Ok nl
    /\ oedeme_detail analysis (py "right") (py "nb_logette") false = Ok nr
    /\ oedeme_detail analysis (py "left") (py "taille") true = Ok tl
    /\ oedeme_detail analysis (py "right") (py "taille") true = Ok tr
    /\ oedeme_detail analysis (py "left") (py "localisation") false = Ok ll
    /\ oedeme_detail analysis (py "right") (py "localisation") false = Ok lr
    /\ edtrs_value format_value analysis (py "left") = Ok el
    /\ edtrs_value format_value analysis (py "right") = Ok er
    /\ results = ml ++ mr ++ [nl; nr; tl; tr; ll; lr; el; er].
Proof.
  intros Ht. unfold analyze_image. rewrite Ht. cbn [negb]. intros H.
  apply rbind_done in H as (img & Himg & H).
  apply rbind_done in H as (analysis0 & H0 & H). apply lift_done in H0.
  apply rbind_done in H as (a1 & H1 & H). apply lift_done in H1.
  apply rbind_done in H as (a2 & H2 & H). apply lift_done in H2.
  apply rbind_done in H as (a3 & H3 & H). apply lift_done in H3.
  apply rbind_done in H as (a4 & H4 & H). apply lift_done in H4.
  apply rbind_done in H as (ml & Hml & H). apply lift_done in Hml.
  apply rbind_done in H as (mr & Hmr & H). apply lift_done in Hmr.
  apply rbind_done in H as (nb & Hnb & H). apply lift_done in Hnb.
  apply rbind_done in H as (ta & Hta & H). apply lift_done in Hta.
  apply rbind_done in H as (lo & Hlo & H). apply lift_done in Hlo.
  apply rbind_done in H as (ed & Hed & H). apply lift_done in Hed.
  apply rbind_done in H as (u & _ & H). injection H as <-.
  apply on_sides_inv in Hnb as (nl & nr & Hnl & Hnr & ->).
  apply on_sides_inv in Hta as (tl & tr & Htl & Htr & ->).
  apply on_sides_inv in Hlo as (ll & lr & Hll & Hlr & ->).
  apply on_sides_inv in Hed as (el & er & Hel & Her & ->).
  exists img, analysis0, a1, a2, a3, a4, ml, mr, nl, nr, tl, tr, ll, lr, el, er.
  repeat split; done.
Qed.

Lemma set_in_eye_inv analysis eye key value analysis' :
  set_in_eye analysis eye key value = Ok analysis' ->
  exists m e,
    analysis = JObj m /\ m !! eye = Some (JObj e)
    /\ analysis' = JObj (<[eye := JObj (<[key := value]> e)]> m).
Proof.
  unfold set_in_eye. intros H.
  apply bind_ok in H as (v & Hv & H). apply bind_ok in H as (v' & Hv' & H).
  destruct analysis; try discriminate. cbn in Hv.
  destruct (m !! eye) as [x|] eqn:E; [|discriminate]. injection Hv as ->.
  destruct v; try discriminate. injection Hv' as <-. injection H as <-.
  eauto.
Qed.

(** Writing briding or decollement into an eye changes no other field. *)
Lemma set_in_eye_field2 analysis eye key value analysis' e k :
  set_in_eye analysis eye key value = Ok analysis' ->
  k <> key -> field2 analysis' e k = field2 analysis e k.
Proof.
  intros H Hk. apply set_in_eye_inv in H as (m & ed & -> & Hm & ->).
  unfold field2, field. destruct (decide (eye = e)) as [<-|Hne].
  - rewrite lookup_insert_eq, Hm. cbn. by rewrite lookup_insert_ne.
  - by rewrite lookup_insert_ne.
Qed.

Lemma set_in_eye_field3 analysis eye key value analysis' e k k' :
  set_in_eye analysis eye key value = Ok analysis' ->
  k <> key -> field3 analysis' e k k' = field3 analysis e k k'.
Proof.
  intros H Hk. unfold field3. by rewrite (set_in_eye_field2 _ _ _ _ _ e k H Hk).
Qed.

Lemma oedeme_detail_of analysis side key lowered v :
  oedeme_detail analysis side key lowered = Ok v ->
  detail_of analysis (side ++ py "_eye") key lowered = Some v.
Proof.
  unfold oedeme_detail, detail_of. intros H.
  apply bind_ok in H as (eye & He & H). apply py_getitem_field in He.
  apply bind_ok in H as (oed & Ho & H). apply py_getitem_field in Ho.
  apply bind_ok in H as (st & Hs & H). apply py_getitem_field in Hs.
  unfold field3, field2. rewrite He. cbn. rewrite Ho. cbn. rewrite Hs. cbn.
  destruct (eq_str (py "Présent") st); [|by injection H as <-].
  apply bind_ok in H as (x & Hx & H). apply py_getitem_field in Hx.
  rewrite Hx. cbn. destruct lowered; [|by injection H as <-].
  apply bind_ok in H as (low & Hl & H). injection H as <-.
  destruct x; try discriminate. by injection Hl as <-.
Qed.

Lemma edtrs_value_of format_value analysis side v :
  edtrs_value format_value analysis side = Ok v ->
  edtrs_of format_value analysis (side ++ py "_eye") = Some v.
Proof.
  unfold edtrs_value, edtrs_of. intros H.
  apply bind_ok in H as (eye & He & H). apply py_getitem_field in He.
  apply bind_ok in H as (t & Ht & H). apply py_getitem_field in Ht.
  unfold field2. rewrite He. cbn [mbind option_bind]. rewrite Ht.
  destruct t; injection H as <-; reflexivity.
Qed.

(** The four assignments of briding and decollement leave every other
    field of the analysis as [process_gpt_response] returned it. *)
Lemma four_sets_field2 a0 a1 a2 a3 a4 v1 v2 v3 v4 e k :
  set_in_eye a0 (py "left_eye") (py "briding") v1 = Ok a1 ->
  set_in_eye a1 (py "left_eye") (py "decollement") v2 = Ok a2 ->
  set_in_eye a2 (py "right_eye") (py "briding") v3 = Ok a3 ->
  set_in_eye a3 (py "right_eye") (py "decollement") v4 = Ok a4 ->
  k <> py "briding" -> k <> py "decollement" ->
  field2 a4 e k = field2 a0 e k.
Proof.
  intros H1 H2 H3 H4 Nb Nd.
  rewrite (set_in_eye_field2 _ _ _ _ _ e k H4 Nd).
  rewrite (set_in_eye_field2 _ _ _ _ _ e k H3 Nb).
  rewrite (set_in_eye_field2 _ _ _ _ _ e k H2 Nd).
  by rewrite (set_in_eye_field2 _ _ _ _ _ e k H1 Nb).
Qed.

Lemma four_sets_field3 a0 a1 a2 a3 a4 v1 v2 v3 v4 e k k' :
  set_in_eye a0 (py "left_eye") (py "briding") v1 = Ok a1 ->
  set_in_eye a1 (py "left_eye") (py "decollement") v2 = Ok a2 ->
  set_in_eye a2 (py "right_eye") (py "briding") v3 = Ok a3 ->
  set_in_eye a3 (py "right_eye") (py "decollement") v4 = Ok a4 ->
  k <> py "briding" -> k <> py "decollement" ->
  field3 a4 e k k' = field3 a0 e k k'.
Proof.
  intros H1 H2 H3 H4 Nb Nd. unfold field3.
  by rewrite (four_sets_field2 _ _ _ _ _ _ _ _ _ e k H1 H2 H3 H4 Nb Nd).
Qed.

Lemma four_sets_detail_of a0 a1 a2 a3 a4 v1 v2 v3 v4 e key lowered :
  set_in_eye a0 (py "left_eye") (py "briding") v1 = Ok a1 ->
  set_in_eye a1 (py "left_eye") (py "decollement") v2 = Ok a2 ->
  set_in_eye a2 (py "right_eye") (py "briding") v3 = Ok a3 ->
  set_in_eye a3 (py "right_eye") (py "decollement") v4 = Ok a4 ->
  detail_of a4 e key lowered = detail_of a0 e key lowered.
Proof.
  intros H1 H2 H3 H4. unfold detail_of.
  by rewrite !(four_sets_field3 _ _ _ _ _ _ _ _ _ e (py "oedeme") _
                 H1 H2 H3 H4) by key_neq.
Qed.

Lemma four_sets_edtrs_of format_value a0 a1 a2 a3 a4 v1 v2 v3 v4 e :
  set_in_eye a0 (py "left_eye") (py "briding") v1 = Ok a1 ->
  set_in_eye a1 (py "left_eye") (py "decollement") v2 = Ok a2 ->
  set_in_eye a2 (py "right_eye") (py "briding") v3 = Ok a3 ->
  set_in_eye a3 (py "right_eye") (py "decollement") v4 = Ok a4 ->
  edtrs_of format_value a4 e = edtrs_of format_value a0 e.
Proof.
  intros H1 H2 H3 H4. unfold edtrs_of.
  by rewrite (four_sets_field2 _ _ _ _ _ _ _ _ _ e (py "epaisseur_retinienne")
                H1 H2 H3 H4) by key_neq.
Qed.

(** The result list against the ids of the outputs. *)
Lemma analyze_image_form chat json_loads format_value
    contents lb ld rb rd results :
  py_truthy contents = true ->
  analyze_image chat json_loads format_value contents lb ld rb rd = Done results ->
  exists image_base64 analysis,
    encode_contents contents = Done image_base64
    /\ process_gpt_response (analyze_with_gpt chat json_loads image_base64)
       = Ok analysis
    /\ combine output_ids (map Some results)
       = form_values format_value analysis lb ld rb rd.
Proof.
  intros Ht H.
  destruct (analyze_image_inv _ _ _ _ _ _ _ _ _ Ht H)
    as (img & a0 & a1 & a2 & a3 & a4 & ml & mr & nl & nr & tl & tr & ll & lr
        & el & er & Himg & H0 & S1 & S2 & S3 & S4 & Hml & Hmr & Hnl & Hnr
        & Htl & Htr & Hll & Hlr & Hel & Her & ->).
  exists img, a0. split; [done|]. split; [done|].
  apply main_values_inv in Hml as (ds & os & mle & ze & ps & F1 & F2 & F3 & F4 & F5 & ->).
  apply main_values_inv in Hmr as (ds' & os' & mle' & ze' & ps' & G1 & G2 & G3 & G4 & G5 & ->).
  apply oedeme_detail_of in Hnl, Hnr, Htl, Htr, Hll, Hlr.
  apply edtrs_value_of in Hel, Her.
  pose proof (fun e key lowered =>
                four_sets_detail_of _ _ _ _ _ _ _ _ _ e key lowered S1 S2 S3 S4) as D.
  pose proof (fun e =>
                four_sets_edtrs_of format_value _ _ _ _ _ _ _ _ _ e S1 S2 S3 S4) as E.
  pose proof (fun e k k' =>
                four_sets_field3 _ _ _ _ _ _ _ _ _ e k k' S1 S2 S3 S4) as T.
  pose proof (fun e k =>
                four_sets_field2 _ _ _ _ _ _ _ _ _ e k S1 S2 S3 S4) as U.
  rewrite D in Hnl. rewrite D in Hnr. rewrite D in Htl. rewrite D in Htr.
  rewrite D in Hll. rewrite D in Hlr. rewrite E in Hel. rewrite E in Her.
  rewrite T in F1 by key_neq. rewrite T in F2 by key_neq.
  rewrite T in F5 by key_neq. rewrite T in G1 by key_neq.
  rewrite T in G2 by key_neq. rewrite T in G5 by key_neq.
  rewrite U in F3 by key_neq. rewrite U in F4 by key_neq.
  rewrite U in G3 by key_neq. rewrite U in G4 by key_neq.
  unfold form_values.
  change (py "left" ++ py "_eye") with (py "left_eye") in *.
  change (py "right" ++ py "_eye") with (py "right_eye") in *.
  rewrite F1, F2, F3, F4, F5, G1, G2, G3, G4, G5.
  rewrite Hnl, Hnr, Htl, Htr, Hll, Hlr, Hel, Her.
  reflexivity.
Qed.

Lemma analyze_image_length chat json_loads format_value
    contents lb ld rb rd results :
  analyze_image chat json_loads format_value contents lb ld rb rd = Done results ->
  length results = 22.
Proof.
  intros H. destruct (py_truthy contents) eqn:Ht.
  - destruct (analyze_image_inv _ _ _ _ _ _ _ _ _ Ht H)
      as (img & a0 & a1 & a2 & a3 & a4 & ml & mr & nl & nr & tl & tr & ll & lr
          & el & er & _ & _ & _ & _ & _ & _ & Hml & Hmr & _ & _ & _ & _ & _ & _
          & _ & _ & ->).
    apply main_values_inv in Hml as (? & ? & ? & ? & ? & _ & _ & _ & _ & _ & ->).
    apply main_values_inv in Hmr as (? & ? & ? & ? & ? & _ & _ & _ & _ & _ & ->).
    reflexivity.
  - unfold analyze_image in H. rewrite Ht in H. by injection H as <-.
Qed.

(** *** When [analyze_image] returns *)

Lemma main_values_intro analysis side briding decollement ds os mle ze ps :
  field3 analysis (side ++ py "_eye") (py "dril") (py "status") = Some ds ->
  field3 analysis (side ++ py "_eye") (py "oedeme") (py "status") = Some os ->
  field2 analysis (side ++ py "_eye") (py "mle") = Some mle ->
  field2 analysis (side ++ py "_eye") (py "ze") = Some ze ->
  field3 analysis (side ++ py "_eye") (py "points_hyperreflectifs") (py "status")
  = Some ps ->
  main_values analysis side briding decollement
  = Ok [ds; os; briding; mle; ze; ps; decollement].
Proof.
  unfold field3, field2, main_values.
  destruct (field analysis (side ++ py "_eye")) as [eye|] eqn:He; [|discriminate].
  apply py_getitem_field in He. rewrite He. cbn [mbind option_bind bind].
  destruct (field eye (py "dril")) as [dril|] eqn:Hd; [|discriminate].
  destruct (field eye (py "oedeme")) as [oed|] eqn:Ho; [|discriminate].
  destruct (field eye (py "points_hyperreflectifs")) as [pts|] eqn:Hp;
    [|discriminate].
  cbn [mbind option_bind]. intros Hds Hos Hm Hz Hps.
  apply py_getitem_field in Hd, Ho, Hp, Hds, Hos, Hm, Hz, Hps.
  rewrite Hd. cbn [bind]. rewrite Hds. cbn [bind]. rewrite Ho. cbn [bind].
  rewrite Hos. cbn [bind]. rewrite Hm. cbn [bind]. rewrite Hz. cbn [bind].
  rewrite Hp. cbn [bind]. by rewrite Hps.
Qed.


(** When the status is "Présent" and the detail is missing, reading it
    raises [KeyError]. *)
Lemma oedeme_detail_missing analysis side key lowered d :
  field2 analysis (side ++ py "_eye") (py "oedeme") = Some (JObj d) ->
  d !! py "status" = Some (JStr (py "Présent")) ->
  d !! key = None ->
  oedeme_detail analysis side key lowered = Raise KeyError.
Proof.
  unfold oedeme_detail, field2.
  destruct (field analysis (side ++ py "_eye")) as [eye|] eqn:He; [|discriminate].
  apply py_getitem_field in He. rewrite He. cbn [mbind option_bind bind].
  intros Ho Hs Hk. apply py_getitem_field in Ho. rewrite Ho. cbn [bind py_getitem].
  rewrite Hs. cbn [bind]. replace (eq_str (py "Présent") (JStr (py "Présent")))
    with true by (by vm_compute).
  by rewrite Hk.
Qed.


Lemma set_in_eye_intro m eye e key value :
  m !! eye = Some (JObj e) ->
  set_in_eye (JObj m) eye key value
  = Ok (JObj (<[eye := JObj (<[key := value]> e)]> m)).
Proof. intros H. unfold set_in_eye. cbn. by rewrite H. Qed.

(** On the outcome of [process_gpt_response] the four assignments go
    through. *)
Lemma four_sets_ok response analysis0 v1 v2 v3 v4 :
  process_gpt_response response = Ok analysis0 ->
  exists a1 a2 a3 a4,
    set_in_eye analysis0 (py "left_eye") (py "briding") v1 = Ok a1
    /\ set_in_eye a1 (py "left_eye") (py "decollement") v2 = Ok a2
    /\ set_in_eye a2 (py "right_eye") (py "briding") v3 = Ok a3
    /\ set_in_eye a3 (py "right_eye") (py "decollement") v4 = Ok a4.
Proof.
  intros H.
  destruct (process_eye_dict_out response analysis0 (py "left_eye"))
    as (l & Hl & _); [by left | done |].
  destruct (process_eye_dict_out response analysis0 (py "right_eye"))
    as (r & Hr & _); [by right; left | done |].
  destruct analysis0; try discriminate. cbn [field] in Hl, Hr.
  eexists _, _, _, _.
  rewrite (set_in_eye_intro m _ l) by done. split; [done|].
  rewrite (set_in_eye_intro _ _ (<[py "briding" := v1]> l))
    by (by rewrite lookup_insert_eq).
  split; [done|]. rewrite insert_insert_eq.
  rewrite (set_in_eye_intro _ _ r)
    by (by rewrite lookup_insert_ne by key_neq).
  split; [done|].
  rewrite (set_in_eye_intro _ _ (<[py "briding" := v3]> r))
    by (by rewrite lookup_insert_eq).
  done.
Qed.


Lemma process_field2_defined response analysis0 eye key :
  process_gpt_response response = Ok analysis0 ->
  In eye eyes -> In key (map fst default_eye_items) ->
  is_Some (field2 analysis0 eye key).
Proof.
  intros H Heye Hkey.
  destruct (process_eye_dict_out response analysis0 eye Heye H)
    as (e' & He' & Hsrc).
  unfold field2. rewrite He'. cbn. destruct Hsrc as [-> | (e & Hs)].
  - by apply default_map_keys.
  - by eapply eye_steps_keys.
Qed.




(** The status of the left oedeme is "Présent" and [nb_logette] is
    missing: reading it raises [KeyError]. *)
Lemma analyze_image_missing_detail chat json_loads format_value
    contents image_base64 analysis0 lb ld rb rd d :
  py_truthy contents = true ->
  encode_contents contents = Done image_base64 ->
  process_gpt_response (analyze_with_gpt chat json_loads image_base64)
  = Ok analysis0 ->
  is_Some (field3 analysis0 (py "left_eye") (py "dril") (py "status")) ->
  is_Some (field3 analysis0 (py "left_eye") (py "points_hyperreflectifs")
             (py "status")) ->
  is_Some (field3 analysis0 (py "right_eye") (py "dril") (py "status")) ->
  is_Some (field3 analysis0 (py "right_eye") (py "oedeme") (py "status")) ->
  is_Some (field3 analysis0 (py "right_eye") (py "points_hyperreflectifs")
             (py "status")) ->
  field2 analysis0 (py "left_eye") (py "oedeme") = Some (JObj d) ->
  d !! py "status" = Some (JStr (py "Présent")) ->
  d !! py "nb_logette" = None ->
  analyze_image chat json_loads format_value contents lb ld rb rd
  = Fail (PyExn KeyError).
Proof.
  intros Ht Himg H0 [dl Hdl] [pl Hpl] [dr Hdr] [or_ Hor] [pr Hpr] Ho Hs Hn.
  destruct (process_field2_defined _ _ (py "left_eye") (py "mle") H0)
    as [ml Hml]; [by left | by vm_compute; tauto |].
  destruct (process_field2_defined _ _ (py "left_eye") (py "ze") H0)
    as [zl Hzl]; [by left | by vm_compute; tauto |].
  destruct (process_field2_defined _ _ (py "right_eye") (py "mle") H0)
    as [mr Hmr]; [by right; left | by vm_compute; tauto |].
  destruct (process_field2_defined _ _ (py "right_eye") (py "ze") H0)
    as [zr Hzr]; [by right; left | by vm_compute; tauto |].
  assert (field3 analysis0 (py "left_eye") (py "oedeme") (py "status")
          = Some (JStr (py "Présent"))) as Hol.
  { unfold field3. rewrite Ho. exact Hs. }
  destruct (four_sets_ok _ analysis0 (or_absent lb) (or_absent ld)
              (or_absent rb) (or_absent rd) H0)
    as (a1 & a2 & a3 & a4 & S1 & S2 & S3 & S4).
  pose proof (fun e k k' =>
                four_sets_field3 _ _ _ _ _ _ _ _ _ e k k' S1 S2 S3 S4) as T.
  pose proof (fun e k =>
                four_sets_field2 _ _ _ _ _ _ _ _ _ e k S1 S2 S3 S4) as U.
  rewrite <- T in Hdl, Hol, Hpl, Hdr, Hor, Hpr by key_neq.
  rewrite <- U in Hml, Hzl, Hmr, Hzr, Ho by key_neq.
  unfold analyze_image. rewrite Ht. cbn [negb]. rewrite Himg. cbn [rbind].
  rewrite H0. cbn [lift rbind]. rewrite S1. cbn [lift rbind].
  rewrite S2. cbn [lift rbind]. rewrite S3. cbn [lift rbind].
  rewrite S4. cbn [lift rbind].
  rewrite (main_values_intro a4 (py "left") lb ld dl _ ml zl pl) by done.
  cbn [lift rbind].
  rewrite (main_values_intro a4 (py "right") rb rd dr or_ mr zr pr) by done.
  cbn [lift rbind]. unfold on_sides.
  by rewrite (oedeme_detail_missing a4 (py "left") _ _ d) by done.
Qed.

Lemma snd_combine_length {A B} (ids : list A) (values : list B) :
  length ids = length values -> map snd (combine ids values) = values.
Proof.
  revert values. induction ids as [|i ids IH]; intros [|v values];
    cbn; try done.
  intros [= H]. by rewrite IH.
Qed.

(** The values of a run, in the order of the form. *)
Lemma analyze_image_values chat json_loads format_value
    contents lb ld rb rd results :
  py_truthy contents = true ->
  analyze_image chat json_loads format_value contents lb ld rb rd = Done results ->
  exists image_base64 analysis,
    encode_contents contents = Done image_base64
    /\ process_gpt_response (analyze_with_gpt chat json_loads image_base64)
       = Ok analysis
    /\ map Some results
       = map snd (form_values format_value analysis lb ld rb rd).
Proof.
  intros Ht H. pose proof (analyze_image_length _ _ _ _ _ _ _ _ _ H) as Hlen.
  destruct (analyze_image_form _ _ _ _ _ _ _ _ _ Ht H)
    as (img & a & Himg & Ha & Hc).
  exists img, a. repeat split; try done.
  rewrite <- Hc. symmetry. apply snd_combine_length.
  rewrite length_map, Hlen. reflexivity.
Qed.

Lemma encode_image_contents_fail contents e :
  encode_image_contents contents = Fail e -> e = ValueError.
Proof.
  unfold encode_image_contents.
  destruct (split (py ",") contents) as [|x [|y [|z rest]]];
    intros [= <-]; reflexivity.
Qed.

Lemma count_occ_one_comma (a b : list N) :
  ~ In 44%N a -> ~ In 44%N b ->
  count_occ N.eq_dec (a ++ py "," ++ b) 44%N = 1.
Proof.
  intros Ha Hb. change (py ",") with [44%N].
  rewrite !count_occ_app.
  apply (count_occ_not_In N.eq_dec) in Ha, Hb. rewrite Ha, Hb. reflexivity.
Qed.

Lemma toggle_none status :
  toggle_oedeme_details status = dict [(py "display", JStr (py "none"))] ->
  eq_str (py "Présent") status = false.
Proof.
  unfold toggle_oedeme_details. destruct (eq_str (py "Présent") status); [|done].
  intros H. apply (f_equal (fun j => field j (py "display"))) in H.
  vm_compute in H. discriminate.
Qed.

End AppFacts.
(** * The claims of the specification *)

Import Pure Norm PyStrFacts PureFacts.

(** ** C1: the function does not always return *)




(** ** C2: only the top-level fields are completed *)




(** ** C3: the error marker *)



(** ** C4: the status is not trimmed *)

(** C4, counterexample.  The raw status " Présente" matches the label once
    trimmed and case-folded, so the claim makes it "Présente".  The source
    never trims: [capitalize] keeps the leading blank, the result is not
    a label, it does not hold the token "present" (the text has an
    e-acute), and the status becomes "Absente". *)
Lemma C4_counterexample :
  lower (strip (py " Présente")) = lower (py "Présente")
  /\ exists out,
       process_gpt_response
         (dict [(py "left_eye",
                 dict [(py "dril", dict [(py "status", JStr (py " Présente"))])])])
       = Ok out
       /\ field3 out (py "left_eye") (py "dril") (py "status")
          = Some (JStr (py "Absente")).
Proof. split; [by vm_compute|]. eexists. split; by vm_compute. Qed.

(** C4, amended.  In an input without the error marker, for an eye whose
    dril, oedeme or points entry is a dict with a string status, when the
    call returns: the status is the label that the raw string matches
    without regard to case (no trimming); otherwise it is the Present
    label if the lower-cased raw string holds "present" and the Absent
    label if not.  It is always one of the two labels. *)
Theorem C4_status_normalized (m e d : gmap (list N) json)
    (eye key present absent raw : list N) (out : json) :
  In eye eyes -> In (key, present, absent) status_fields ->
  m !! py "error" = None ->
  m !! eye = Some (JObj e) -> e !! key = Some (JObj d) ->
  d !! py "status" = Some (JStr raw) ->
  process_gpt_response (JObj m) = Ok out ->
  exists s,
    field3 out eye key (py "status") = Some (JStr s)
    /\ (s = present \/ s = absent)
    /\ (lower raw = lower present -> s = present)
    /\ (lower raw = lower absent -> s = absent)
    /\ (lower raw <> lower present -> lower raw <> lower absent ->
        s = if contains (py "present") (lower raw) then present else absent).
Proof.
  intros Heye Hkey Herr Hm He Hd H.
  assert (has_key m (py "error") = false) as Herr'
    by (unfold has_key; by rewrite Herr).
  destruct (process_eye_present m eye e out Heye Herr' Hm H) as (e' & Hout & Hs).
  pose proof (eye_steps_lookup e e' key Hs) as L. rewrite He in L.
  destruct L as (v' & Hf & Hv').
  destruct (field_norm_status_value _ _ _ _ _ _ Hkey Hd Hf) as (d' & -> & Hd').
  exists (code_status present absent raw).
  split.
  { unfold field3, field2. rewrite Hout. cbn. rewrite Hv'. cbn. exact Hd'. }
  destruct (status_fields_label_like _ _ _ Hkey) as [Lp La].
  split; [apply code_status_labels|].
  rewrite (code_status_spec present absent raw Lp La).
  repeat split; intros; repeat case_bool_decide; try done.
  assert (lower present <> lower absent); [|congruence].
  revert Hkey. cbn [status_fields In].
  by intros [[= <- <- <-]|[[= <- <- <-]|[[= <- <- <-]|[]]]]; vm_compute.
Qed.

Lemma C4_witness :
  exists s,
    field3 (dict [(py "left_eye", default_eye);
                  (py "right_eye",
                   dict ((py "points_hyperreflectifs",
                          dict [(py "status", JStr (py "Présents"))])
                         :: default_eye_items))])
      (py "right_eye") (py "points_hyperreflectifs") (py "status")
    = Some (JStr s)
    /\ (s = py "Présents" \/ s = py "Absents").
Proof.
  destruct (C4_status_normalized
    (list_to_map [(py "right_eye",
       dict [(py "points_hyperreflectifs",
              dict [(py "status", JStr (py "PRÉSENTS"))])])])
    (list_to_map [(py "points_hyperreflectifs",
                   dict [(py "status", JStr (py "PRÉSENTS"))])])
    (list_to_map [(py "status", JStr (py "PRÉSENTS"))])
    (py "right_eye") (py "points_hyperreflectifs")
    (py "Présents") (py "Absents") (py "PRÉSENTS")
    (dict [(py "left_eye", default_eye);
           (py "right_eye",
            dict ((py "points_hyperreflectifs",
                   dict [(py "status", JStr (py "Présents"))])
                  :: default_eye_items))]))
    as (s & Hs & Hl & _).
  - right; by left.
  - right; right; by left.
  - by vm_compute.
  - by vm_compute.
  - by vm_compute.
  - by vm_compute.
  - by vm_compute.
  - eauto.
Defined.

(** ** C5: the size table *)




(** ** C6: the membrane tokens *)

(** C6, counterexample.  The claim classifies by the token "partial"; the
    source tests "partiel".  The text "Partial interruption" holds the
    token of the claim and none of the source's three, and is left as it
    is. *)
Lemma C6_counterexample :
  contains (py "partial") (lower (py "Partial interruption")) = true
  /\ contains (py "continu") (lower (py "Partial interruption")) = false
  /\ exists out,
       process_gpt_response
         (dict [(py "left_eye", dict [(py "mle", JStr (py "Partial interruption"))])])
       = Ok out
       /\ field2 out (py "left_eye") (py "mle")
          = Some (JStr (py "Partial interruption")).
Proof.
  split; [by vm_compute|]. split; [by vm_compute|].
  eexists. split; by vm_compute.
Qed.

(** C6, amended.  In an input without the error marker, for an eye whose
    mle or ze entry is a string, when the call returns: the entry is
    "Continue" if the lower-cased value holds "continu", else
    "Partiellement interrompue" if it holds "partiel", else "Complètement
    interrompue" if it holds "complet", and else the value unchanged. *)
Theorem C6_membrane_classified (m e : gmap (list N) json)
    (eye fld value : list N) (out : json) :
  In eye eyes -> In fld [py "mle"; py "ze"] ->
  m !! py "error" = None ->
  m !! eye = Some (JObj e) -> e !! fld = Some (JStr value) ->
  process_gpt_response (JObj m) = Ok out ->
  field2 out eye fld
  = Some (JStr
      (if contains (py "continu") (lower value) then py "Continue"
       else if contains (py "partiel") (lower value)
            then py "Partiellement interrompue"
       else if contains (py "complet") (lower value)
            then py "Complètement interrompue"
       else value)).
Proof.
  intros Heye Hfld Herr Hm He H.
  assert (has_key m (py "error") = false) as Herr'
    by (unfold has_key; by rewrite Herr).
  destruct (process_eye_present m eye e out Heye Herr' Hm H) as (e' & Hout & Hs).
  pose proof (eye_steps_lookup e e' fld Hs) as L. rewrite He in L.
  destruct L as (v' & Hf & Hv').
  assert (field_norm fld = norm_membrane) as Hn.
  { cbn [In] in Hfld. by destruct Hfld as [<-|[<-|[]]]. }
  rewrite Hn in Hf. cbn [norm_membrane] in Hf. injection Hf as <-.
  unfold field2. rewrite Hout. cbn. exact Hv'.
Qed.

Lemma C6_witness :
  field2 (dict [(py "left_eye", default_eye);
                (py "right_eye",
                 dict ((py "ze", JStr (py "Partiellement interrompue"))
                       :: default_eye_items))])
    (py "right_eye") (py "ze")
  = Some (JStr (py "Partiellement interrompue")).
Proof.
  exact (C6_membrane_classified
    (list_to_map [(py "right_eye", dict [(py "ze", JStr (py "PARTIELLE"))])])
    (list_to_map [(py "ze", JStr (py "PARTIELLE"))])
    (py "right_eye") (py "ze") (py "PARTIELLE")
    (dict [(py "left_eye", default_eye);
           (py "right_eye",
            dict ((py "ze", JStr (py "Partiellement interrompue"))
                  :: default_eye_items))])
    (or_intror (or_introl eq_refl)) (or_intror (or_introl eq_refl))
    eq_refl eq_refl eq_refl eq_refl).
Defined.

(** ** C7: a missing eye *)

(** C7.  When the call on a dict returns, an eye that the dict lacks is
    the default eye in the outcome.  The empty dict gives the default
    structure.  A dict with a left eye only gives the default right eye,
    and a left eye in which every field of the input is kept (as the loop
    body leaves it) and every field the input lacks is the field of the
    default eye. *)
Theorem C7_missing_eye_is_default :
  (forall (m : gmap (list N) json) eye out,
     In eye eyes -> m !! eye = None ->
     process_gpt_response (JObj m) = Ok out ->
     field out eye = Some default_eye)
  /\ process_gpt_response (dict []) = Ok default_structure
  /\ (forall (e : gmap (list N) json) out,
        process_gpt_response (dict [(py "left_eye", JObj e)]) = Ok out ->
        field out (py "right_eye") = Some default_eye
        /\ exists e',
             field out (py "left_eye") = Some (JObj e')
             /\ (forall k, e !! k = None -> e' !! k = field default_eye k)
             /\ (forall k v, e !! k = Some v ->
                   exists v', field_norm k v = Ok v' /\ e' !! k = Some v')).
Proof.
  split; [|split].
  - intros m eye out. apply process_eye_absent.
  - by vm_compute.
  - intros e out H. split.
    + apply (process_eye_absent (list_to_map [(py "left_eye", JObj e)]));
        [right; by left | by vm_compute | exact H].
    + destruct (process_eye_present (list_to_map [(py "left_eye", JObj e)])
                  (py "left_eye") e out) as (e' & Hout & Hs);
        [by left | by vm_compute | | exact H |].
      { cbn [list_to_map foldr]. unfold uncurry; cbn [fst snd].
        by rewrite lookup_insert_eq. }
      exists e'. split; [done|]. split.
      * intros k Hk. pose proof (eye_steps_lookup e e' k Hs) as L.
        by rewrite Hk in L.
      * intros k v Hk. pose proof (eye_steps_lookup e e' k Hs) as L.
        by rewrite Hk in L.
Qed.

Lemma C7_witness :
  field (dict [(py "left_eye",
                dict ((py "mle", JStr (py "Continue")) :: default_eye_items));
               (py "right_eye", default_eye)])
        (py "right_eye")
  = Some default_eye.
Proof.
  apply (proj1 C7_missing_eye_is_default
    (list_to_map [(py "left_eye", dict [(py "mle", JStr (py "continue"))])])).
  - right; by left.
  - by vm_compute.
  - by vm_compute.
Defined.

(** ** C9: a thickness given as one string *)

(** C9.  In an input without the error marker, for an eye whose
    epaisseur_retinienne is a string, when the call returns: the entry
    is the dict of the five sectors, with the string under [central] and
    the empty string under the other four. *)
Theorem C9_thickness_flattened (m e : gmap (list N) json)
    (eye s : list N) (out : json) :
  In eye eyes -> m !! py "error" = None ->
  m !! eye = Some (JObj e) ->
  e !! py "epaisseur_retinienne" = Some (JStr s) ->
  process_gpt_response (JObj m) = Ok out ->
  field2 out eye (py "epaisseur_retinienne")
  = Some (dict [ (py "central", JStr s);
                 (py "superieur", JStr (py ""));
                 (py "inferieur", JStr (py ""));
                 (py "nasal", JStr (py ""));
                 (py "temporal", JStr (py "")) ]).
Proof.
  intros Heye Herr Hm He H.
  assert (has_key m (py "error") = false) as Herr'
    by (unfold has_key; by rewrite Herr).
  destruct (process_eye_present m eye e out Heye Herr' Hm H) as (e' & Hout & Hs).
  pose proof (eye_steps_lookup e e' (py "epaisseur_retinienne") Hs) as L.
  rewrite He in L. destruct L as (v' & Hf & Hv').
  change (field_norm (py "epaisseur_retinienne")) with norm_epaisseur in Hf.
  injection Hf as <-.
  unfold field2. rewrite Hout. cbn. exact Hv'.
Qed.

Lemma C9_witness :
  field2 (dict [(py "left_eye",
                 dict ((py "epaisseur_retinienne",
                        dict [ (py "central", JStr (py "250um central"));
                               (py "superieur", JStr (py ""));
                               (py "inferieur", JStr (py ""));
                               (py "nasal", JStr (py ""));
                               (py "temporal", JStr (py "")) ])
                       :: default_eye_items));
                (py "right_eye", default_eye)])
    (py "left_eye") (py "epaisseur_retinienne")
  = Some (dict [ (py "central", JStr (py "250um central"));
                 (py "superieur", JStr (py ""));
                 (py "inferieur", JStr (py ""));
                 (py "nasal", JStr (py ""));
                 (py "temporal", JStr (py "")) ]).
Proof.
  exact (C9_thickness_flattened
    (list_to_map [(py "left_eye",
       dict [(py "epaisseur_retinienne", JStr (py "250um central"))])])
    (list_to_map [(py "epaisseur_retinienne", JStr (py "250um central"))])
    (py "left_eye") (py "250um central")
    (dict [(py "left_eye",
            dict ((py "epaisseur_retinienne",
                   dict [ (py "central", JStr (py "250um central"));
                          (py "superieur", JStr (py ""));
                          (py "inferieur", JStr (py ""));
                          (py "nasal", JStr (py ""));
                          (py "temporal", JStr (py "")) ])
                  :: default_eye_items));
           (py "right_eye", default_eye)])
    (or_introl eq_refl) eq_refl eq_refl eq_refl eq_refl).
Defined.

(** ** C10: a second pass changes nothing *)

(** C10.  Whenever [process_gpt_response] returns [y] on [x], it returns
    [y] on [y]. *)
Theorem C10_idempotent (x y : json) :
  process_gpt_response x = Ok y -> process_gpt_response y = Ok y.
Proof. apply process_idem. Qed.

Lemma C10_witness :
  process_gpt_response
    (dict [(py "left_eye",
            dict ((py "mle", JStr (py "Complètement interrompue"))
                  :: (py "oedeme", dict [(py "status", JStr (py "Présent"));
                                         (py "taille", JStr (py "petite"))])
                  :: default_eye_items));
           (py "right_eye", default_eye)])
  = Ok (dict [(py "left_eye",
               dict ((py "mle", JStr (py "Complètement interrompue"))
                     :: (py "oedeme", dict [(py "status", JStr (py "Présent"));
                                            (py "taille", JStr (py "petite"))])
                     :: default_eye_items));
              (py "right_eye", default_eye)]).
Proof.
  apply (C10_idempotent
    (dict [(py "left_eye",
            dict [(py "mle", JStr (py "rupture COMPLETE"));
                  (py "oedeme", dict [(py "status", JStr (py "oedeme present"));
                                      (py "taille", JStr (py "<100"))])])])).
  by vm_compute.
Defined.

(** * Further properties of the code *)

(** ** [process_gpt_response] on the store *)

Section StoreProperties.
Import Heap Template Frame HeapFacts.

(** X1.  Whatever the argument and the store, a call of
    [process_gpt_response] keeps every object of the store in its place,
    leaves every list as it was, removes no key from a dict, and leaves
    the value of every key other than [status], [taille] and the eight
    fields of an eye as it was: an exception does not undo this either. *)
Theorem X1_call_frame (response : val) (h : list obj) :
  frame h (snd (Heap.process_gpt_response response h)).
Proof. apply framed_process_gpt_response. Qed.

(** X2.  On a dict without the error marker, the value a call returns is
    its argument: the dict of the caller, updated in place, and no
    copy. *)
Theorem X2_returns_its_argument (h h' : list obj) (l : nat)
    (items : list (list N * val)) (v : val) :
  h !! l = Some (ODict items) ->
  assoc (py "error") items = None ->
  Heap.process_gpt_response (VRef l) h = (Ret v, h') ->
  v = VRef l.
Proof. apply process_same_object. Qed.

Lemma X2_witness :
  VRef 0 = VRef 0.
Proof.
  apply (X2_returns_its_argument
           [ODict [(py "left_eye", VRef 1)]; ODict [(py "mle", VStr (py "continue"))]]
           (snd (Heap.process_gpt_response (VRef 0)
              [ODict [(py "left_eye", VRef 1)];
               ODict [(py "mle", VStr (py "continue"))]]))
           0 [(py "left_eye", VRef 1)] (VRef 0)).
  - reflexivity.
  - reflexivity.
  - by vm_compute.
Defined.





(** X5.  An eye that the dict of the caller holds before a call is held
    under the same key after it, as the same object: the eye record is
    standardised in place and never replaced, whether the call returns
    or raises. *)
Theorem X5_present_eye_stays_the_same_object (h : list obj) (l : nat)
    (items : list (list N * val)) (response : val) (eye : list N) (v : val) :
  h !! l = Some (ODict items) ->
  In eye [py "left_eye"; py "right_eye"] ->
  assoc eye items = Some v ->
  exists items',
    snd (Heap.process_gpt_response response h) !! l = Some (ODict items')
    /\ assoc eye items' = Some v.
Proof.
  intros Hl Heye Hv.
  destruct (framed_process_gpt_response response h l _ Hl) as (items' & Hl' & F).
  exists items'. split; [done|].
  destruct (F eye v Hv) as [_ Hkeep]. apply Hkeep.
  cbn [In] in Heye. by destruct Heye as [<-|[<-|[]]]; vm_compute.
Qed.

Lemma X5_witness :
  exists items',
    snd (Heap.process_gpt_response (VRef 0)
           [ODict [(py "left_eye", VRef 1)];
            ODict [(py "mle", VStr (py "continue"))]]) !! 0
    = Some (ODict items')
    /\ assoc (py "left_eye") items' = Some (VRef 1).
Proof.
  apply (X5_present_eye_stays_the_same_object
           [ODict [(py "left_eye", VRef 1)];
            ODict [(py "mle", VStr (py "continue"))]]
           0 [(py "left_eye", VRef 1)] (VRef 0) (py "left_eye") (VRef 1)).
  - reflexivity.
  - left; reflexivity.
  - reflexivity.
Defined.

End StoreProperties.

(** ** [process_gpt_response] on values *)

Section ValueProperties.
Import Pure Norm PyStrFacts PureFacts.

(** X6.  Without the error marker, every key of the response other than
    the two eyes is in the outcome with the value it had: the function
    never drops or rewrites what it does not know. *)
Theorem X6_other_keys_kept (m : gmap (list N) json) (out : json) (k : list N) :
  m !! py "error" = None ->
  process_gpt_response (JObj m) = Ok out ->
  k <> py "left_eye" -> k <> py "right_eye" ->
  field out k = m !! k.
Proof.
  intros Herr H N1 N2. apply process_inv in H as (m0 & [= <-] & H).
  unfold has_key in H. rewrite Herr in H.
  destruct H as (m' & -> & _ & _ & O). by apply O.
Qed.

Lemma X6_witness :
  field (dict [(py "left_eye", default_eye); (py "right_eye", default_eye);
               (py "model", JStr (py "gpt-4o"))])
        (py "model")
  = Some (JStr (py "gpt-4o")).
Proof.
  etransitivity.
  - apply (X6_other_keys_kept
             (list_to_map [(py "model", JStr (py "gpt-4o"))])
             (dict [(py "left_eye", default_eye); (py "right_eye", default_eye);
                    (py "model", JStr (py "gpt-4o"))])
             (py "model")); by vm_compute.
  - by vm_compute.
Defined.

(** X7.  In an eye of the input, a field other than dril, oedeme, mle, ze,
    points_hyperreflectifs and epaisseur_retinienne is in the outcome as
    it was: briding and decollement given by the model are kept, and so
    is any field the schema does not know. *)
Theorem X7_unhandled_fields_kept (m e : gmap (list N) json)
    (eye k : list N) (v out : json) :
  In eye eyes -> m !! py "error" = None ->
  m !! eye = Some (JObj e) -> e !! k = Some v ->
  ~ In k [py "dril"; py "oedeme"; py "mle"; py "ze";
          py "points_hyperreflectifs"; py "epaisseur_retinienne"] ->
  process_gpt_response (JObj m) = Ok out ->
  field2 out eye k = Some v.
Proof.
  intros Heye Herr Hm He Hk H.
  assert (has_key m (py "error") = false) as Herr'
    by (unfold has_key; by rewrite Herr).
  destruct (process_eye_present m eye e out Heye Herr' Hm H) as (e' & Hout & Hs).
  pose proof (eye_steps_lookup e e' k Hs) as L. rewrite He in L.
  destruct L as (v' & Hf & Hv').
  assert (field_norm k = Ok) as Hn.
  { unfold field_norm. cbn [In] in Hk.
    repeat (case_decide; [exfalso; apply Hk; subst; tauto|]). reflexivity. }
  rewrite Hn in Hf. injection Hf as <-.
  unfold field2. rewrite Hout. cbn. exact Hv'.
Qed.

Lemma X7_witness :
  field2 (dict [(py "left_eye",
                 dict ((py "briding", JStr (py "Présent")) :: default_eye_items));
                (py "right_eye", default_eye)])
         (py "left_eye") (py "briding")
  = Some (JStr (py "Présent")).
Proof.
  apply (X7_unhandled_fields_kept
           (list_to_map [(py "left_eye", dict [(py "briding", JStr (py "Présent"))])])
           (list_to_map [(py "briding", JStr (py "Présent"))])
           (py "left_eye") (py "briding") (JStr (py "Présent"))).
  - left; reflexivity.
  - by vm_compute.
  - by vm_compute.
  - by vm_compute.
  - cbn [In]. intros [H|[H|[H|[H|[H|[H|[]]]]]]]; vm_compute in H; discriminate H.
  - by vm_compute.
Defined.

(** X8.  A dril, oedeme or points entry that is not a dict (a string, a
    number, a list, null) is left as it is: the [isinstance] guard skips
    it without an error. *)
Theorem X8_non_dict_entry_skipped (m e : gmap (list N) json)
    (eye k : list N) (v out : json) :
  In eye eyes -> m !! py "error" = None ->
  m !! eye = Some (JObj e) ->
  In k [py "dril"; py "oedeme"; py "points_hyperreflectifs"] ->
  e !! k = Some v -> is_dict v = false ->
  process_gpt_response (JObj m) = Ok out ->
  field2 out eye k = Some v.
Proof.
  intros Heye Herr Hm Hk He Hv H.
  assert (has_key m (py "error") = false) as Herr'
    by (unfold has_key; by rewrite Herr).
  destruct (process_eye_present m eye e out Heye Herr' Hm H) as (e' & Hout & Hs).
  pose proof (eye_steps_lookup e e' k Hs) as L. rewrite He in L.
  destruct L as (v' & Hf & Hv').
  assert (v' = v) as ->.
  { cbn [In] in Hk. destruct Hk as [<-|[<-|[<-|[]]]].
    - change (field_norm (py "dril"))
        with (norm_status (py "Présente") (py "Absente")) in Hf.
      destruct v; try discriminate; by injection Hf.
    - change (field_norm (py "oedeme")) with norm_oedeme in Hf.
      destruct v; try discriminate; by injection Hf.
    - change (field_norm (py "points_hyperreflectifs"))
        with (norm_status (py "Présents") (py "Absents")) in Hf.
      destruct v; try discriminate; by injection Hf. }
  unfold field2. rewrite Hout. cbn. exact Hv'.
Qed.

Lemma X8_witness :
  field2 (dict [(py "left_eye", default_eye);
                (py "right_eye",
                 dict ((py "dril", JStr (py "absente")) :: default_eye_items))])
         (py "right_eye") (py "dril")
  = Some (JStr (py "absente")).
Proof.
  apply (X8_non_dict_entry_skipped
           (list_to_map [(py "right_eye", dict [(py "dril", JStr (py "absente"))])])
           (list_to_map [(py "dril", JStr (py "absente"))])
           (py "right_eye") (py "dril") (JStr (py "absente"))).
  - right; left; reflexivity.
  - by vm_compute.
  - by vm_compute.
  - left; reflexivity.
  - by vm_compute.
  - reflexivity.
  - by vm_compute.
Defined.

(** X9.  In a dril, oedeme or points dict of the input, every field
    other than [status] and [taille] is in the outcome as it was
    ([extent], [nb_logette], [localisation], [nombre], and any field the
    schema does not know): the loop body rewrites the status and the size
    only. *)
Theorem X9_entry_fields_kept (m e d : gmap (list N) json)
    (eye key present absent k : list N) (out : json) :
  In eye eyes -> In (key, present, absent) status_fields ->
  m !! py "error" = None ->
  m !! eye = Some (JObj e) -> e !! key = Some (JObj d) ->
  k <> py "status" -> k <> py "taille" ->
  process_gpt_response (JObj m) = Ok out ->
  field3 out eye key k = d !! k.
Proof.
  intros Heye Hkey Herr Hm He Ns Nt H.
  assert (has_key m (py "error") = false) as Herr'
    by (unfold has_key; by rewrite Herr).
  destruct (process_eye_present m eye e out Heye Herr' Hm H) as (e' & Hout & Hs).
  pose proof (eye_steps_lookup e e' key Hs) as L. rewrite He in L.
  destruct L as (v' & Hf & Hv').
  destruct (field_norm_status_siblings _ _ _ _ _ k Hkey Hf Ns Nt) as (d' & -> & Hd').
  unfold field3, field2. rewrite Hout. cbn. rewrite Hv'. cbn. exact Hd'.
Qed.

Lemma X9_witness :
  field3 (dict [(py "left_eye",
                 dict ((py "oedeme",
                        dict [(py "status", JStr (py "Présent"));
                              (py "nb_logette", JStr (py "3"))])
                       :: default_eye_items));
                (py "right_eye", default_eye)])
         (py "left_eye") (py "oedeme") (py "nb_logette")
  = Some (JStr (py "3")).
Proof.
  etransitivity.
  - apply (X9_entry_fields_kept
             (list_to_map [(py "left_eye",
                dict [(py "oedeme", dict [(py "status", JStr (py "present"));
                                          (py "nb_logette", JStr (py "3"))])])])
             (list_to_map [(py "oedeme",
                dict [(py "status", JStr (py "present"));
                      (py "nb_logette", JStr (py "3"))])])
             (list_to_map [(py "status", JStr (py "present"));
                           (py "nb_logette", JStr (py "3"))])
             (py "left_eye") (py "oedeme") (py "Présent") (py "Absent")
             (py "nb_logette")).
    + left; reflexivity.
    + right; left; reflexivity.
    + by vm_compute.
    + by vm_compute.
    + by vm_compute.
    + by vm_compute.
    + by vm_compute.
    + by vm_compute.
  - by vm_compute.
Defined.

(** X10.  The two eyes are standardised apart: when two responses without
    the error marker hold the same value under an eye (or both lack it)
    and both calls return, the outcomes hold the same record for that
    eye, whatever the other eye and the other keys are. *)
Theorem X10_eyes_independent (m1 m2 : gmap (list N) json)
    (eye : list N) (out1 out2 : json) :
  In eye eyes ->
  m1 !! py "error" = None -> m2 !! py "error" = None ->
  m1 !! eye = m2 !! eye ->
  process_gpt_response (JObj m1) = Ok out1 ->
  process_gpt_response (JObj m2) = Ok out2 ->
  field out1 eye = field out2 eye.
Proof.
  intros Heye E1 E2 Hm H1 H2.
  apply process_inv in H1 as (m & [= <-] & H1).
  apply process_inv in H2 as (m & [= <-] & H2).
  unfold has_key in *. rewrite E1 in H1. rewrite E2 in H2.
  destruct H1 as (m1' & -> & L1 & R1 & _). destruct H2 as (m2' & -> & L2 & R2 & _).
  apply eyes_cases in Heye as [-> | ->]; cbn [field]; by eapply eye_out_same.
Qed.

Lemma X10_witness :
  field (dict [(py "left_eye",
                dict ((py "ze", JStr (py "Continue")) :: default_eye_items));
               (py "right_eye", default_eye)])
        (py "left_eye")
  = field (dict [(py "left_eye",
                  dict ((py "ze", JStr (py "Continue")) :: default_eye_items));
                 (py "right_eye",
                  dict ((py "mle", JStr (py "Partiellement interrompue"))
                        :: default_eye_items));
                 (py "note", JInt 1)])
          (py "left_eye").
Proof.
  apply (X10_eyes_independent
           (list_to_map [(py "left_eye", dict [(py "ze", JStr (py "continue"))])])
           (list_to_map [(py "left_eye", dict [(py "ze", JStr (py "continue"))]);
                         (py "right_eye", dict [(py "mle", JStr (py "partielle"))]);
                         (py "note", JInt 1)])
           (py "left_eye")).
  - left; reflexivity.
  - by vm_compute.
  - by vm_compute.
  - by vm_compute.
  - by vm_compute.
  - by vm_compute.
Defined.

(** X11.  A response that is not a dict (a list, a string, a number, a
    boolean, null) makes the call raise [TypeError], also when it holds
    the text "error": the trace of the error branch subscripts the
    response by a string. *)
Theorem X11_not_a_dict_raises (response : json) :
  is_dict response = false ->
  process_gpt_response response = Raise TypeError.
Proof. apply process_not_dict. Qed.

Lemma X11_witness :
  process_gpt_response (JArr [JStr (py "error")]) = Raise TypeError.
Proof. apply X11_not_a_dict_raises. reflexivity. Defined.

(** X12.  Without the error marker, a left eye that is not a dict makes
    the call raise [TypeError], and a left eye whose dril is a dict
    without [status] makes it raise [KeyError], whatever the rest of the
    response is. *)
Theorem X12_left_eye_errors (m : gmap (list N) json) (v : json) :
  m !! py "error" = None -> m !! py "left_eye" = Some v ->
  (is_dict v = false -> process_gpt_response (JObj m) = Raise TypeError)
  /\ (forall e d, v = JObj e -> e !! py "dril" = Some (JObj d) ->
                  d !! py "status" = None ->
                  process_gpt_response (JObj m) = Raise KeyError).
Proof.
  intros Herr Hm. split.
  - by apply process_eye_not_dict.
  - intros e d -> He Hd. by eapply process_missing_status.
Qed.

Lemma X12_witness :
  process_gpt_response
    (dict [(py "left_eye", JStr (py "normal")); (py "right_eye", dict [])])
  = Raise TypeError.
Proof.
  destruct (X12_left_eye_errors
              (list_to_map [(py "left_eye", JStr (py "normal"));
                            (py "right_eye", dict [])])
              (JStr (py "normal"))) as [H _].
  - by vm_compute.
  - by vm_compute.
  - apply H. reflexivity.
Defined.

End ValueProperties.

(** ** The callbacks around [process_gpt_response] *)

Section AppProperties.
Import Pure Norm PureFacts App Form Scenario AppFacts.

(** X13.  [encode_image_contents] returns [b] exactly when the contents
    are some text without a comma, one comma, and [b], itself without a
    comma: the payload of a data URI is returned whole. *)
Theorem X13_encode_returns_payload (contents b : list N) :
  encode_image_contents contents = Done b
  <-> exists a, contents = a ++ py "," ++ b /\ ~ In 44%N a /\ ~ In 44%N b.
Proof.
  split.
  - intros H. destruct (encode_image_contents_inv _ _ H) as (a & -> & Ha & Hb).
    exists a. change (py ",") with [44%N] in Ha, Hb.
    by rewrite !contains_single in Ha, Hb.
  - intros (a & -> & Ha & Hb). apply encode_image_contents_ok;
      change (py ",") with [44%N]; by apply contains_single.
Qed.

(** X14.  On contents that do not hold one comma exactly, the unpacking
    of [encode_image_contents] raises [ValueError], and [analyze_image]
    on such an upload raises it too: nothing around the call catches
    it. *)
Theorem X14_comma_count_value_error
    (chat : list N -> list N + option (list N))
    (json_loads : list N -> list N + json) (format_value : json -> list N)
    (contents : list N) (lb ld rb rd : json) :
  count_occ N.eq_dec contents 44%N <> 1 ->
  encode_image_contents contents = Fail ValueError
  /\ (contents <> [] ->
      analyze_image chat json_loads format_value (JStr contents) lb ld rb rd
      = Fail ValueError).
Proof.
  intros Hn.
  assert (encode_image_contents contents = Fail ValueError) as He.
  { destruct (encode_image_contents contents) as [b|e] eqn:E.
    - destruct (encode_image_contents_inv _ _ E) as (a & -> & Ha & Hb).
      change (py ",") with [44%N] in Ha, Hb.
      rewrite contains_single in Ha, Hb.
      by rewrite count_occ_one_comma in Hn.
    - by rewrite (encode_image_contents_fail _ _ E). }
  split; [done|]. intros Hne. unfold analyze_image.
  destruct contents as [|c contents]; [done|].
  cbn [py_truthy negb encode_contents]. by rewrite He.
Qed.

Lemma X14_witness :
  encode_image_contents (py "data:image/png;base64") = Fail ValueError
  /\ (py "data:image/png;base64" <> [] ->
      analyze_image failing_chat failing_decoder text_of
        (JStr (py "data:image/png;base64")) JNull JNull JNull JNull
      = Fail ValueError).
Proof.
  apply (X14_comma_count_value_error failing_chat failing_decoder text_of
           (py "data:image/png;base64") JNull JNull JNull JNull).
  by vm_compute.
Defined.

(** X15.  The extraction of the text between the fences never fails:
    when the text holds a fence, [split] gives at least two parts, so
    the indexes [1] and [0] are in range. *)
Theorem X15_fence_indexes_in_range (response_text : list N) :
  exists text, extract_json_text response_text = Done text.
Proof. apply extract_json_text_total. Qed.

(** X16.  A text without a fence of three backquotes is handed to the
    decoder as it is. *)
Theorem X16_plain_text_unchanged (response_text : list N) :
  contains (py "```") response_text = false ->
  extract_json_text response_text = Done response_text.
Proof. apply extract_json_text_plain. Qed.

Lemma X16_witness :
  extract_json_text (py "{ }") = Done (py "{ }").
Proof. apply (X16_plain_text_unchanged (py "{ }")). reflexivity. Defined.

(** X17.  When the text holds a fence, the text handed to the decoder
    holds none. *)
Theorem X17_no_fence_left (response_text text : list N) :
  contains (py "```") response_text = true ->
  extract_json_text response_text = Done text ->
  contains (py "```") text = false.
Proof. apply extract_json_text_no_fence. Qed.

Lemma X17_witness :
  contains (py "```") (py "{}") = false.
Proof.
  apply (X17_no_fence_left (py "```json {} ```") (py "{}")).
  - by vm_compute.
  - by vm_compute.
Defined.

(** X18.  For a text made of a prefix and a body without backquotes, the
    body being fenced by [```json] and [```], the text handed to the
    decoder is the body without the white space around it, whatever
    follows the closing fence (as long as no [```json] starts in the
    body or after it). *)
Theorem X18_fenced_body (pre body post : list N) :
  ~ In 96%N pre -> ~ In 96%N body ->
  contains (py "```json") (body ++ py "```" ++ post) = false ->
  extract_json_text (pre ++ py "```json" ++ body ++ py "```" ++ post)
  = Done (strip_ws body).
Proof. apply extract_json_text_fenced. Qed.

Lemma X18_witness :
  extract_json_text
    (py "Voici: " ++ py "```json" ++ py " {} " ++ py "```" ++ py " fin ``` x")
  = Done (strip_ws (py " {} ")).
Proof.
  apply (X18_fenced_body (py "Voici: ") (py " {} ") (py " fin ``` x")).
  - vm_compute. intuition discriminate.
  - vm_compute. intuition discriminate.
  - by vm_compute.
Defined.

(** X19.  When the request fails, or the answer has no content, or the
    decoder rejects the extracted text, [process_gpt_response] on the
    outcome of [analyze_with_gpt] returns the default structure. *)
Theorem X19_upstream_failure_gives_defaults
    (chat : list N -> list N + option (list N))
    (json_loads : list N -> list N + json) (image_base64 : list N) :
  (exists message, chat image_base64 = inl message)
  \/ chat image_base64 = inr None
  \/ (exists content text message,
        chat image_base64 = inr (Some content)
        /\ extract_json_text (strip_ws content) = Done text
        /\ json_loads text = inl message) ->
  process_gpt_response (analyze_with_gpt chat json_loads image_base64)
  = Ok default_structure.
Proof.
  unfold analyze_with_gpt.
  intros [(message & ->) | [-> | (content & text & message & -> & -> & ->)]];
    apply process_error_response.
Qed.

Lemma X19_witness :
  process_gpt_response (analyze_with_gpt answering_chat failing_decoder (py "iVBORw0KGgo="))
  = Ok default_structure.
Proof.
  apply (X19_upstream_failure_gives_defaults answering_chat failing_decoder
           (py "iVBORw0KGgo=")).
  right; right.
  exists (py "```json {} ```"), (py "{}"),
         (py "Expecting value: line 1 column 1 (char 0)").
  split; [reflexivity | split; [by vm_compute | reflexivity]].
Defined.

(** X20.  When [analyze_image] returns, it returns 22 values: one for
    each [Output] of the callback. *)
Theorem X20_one_value_per_output
    (chat : list N -> list N + option (list N))
    (json_loads : list N -> list N + json) (format_value : json -> list N)
    (contents lb ld rb rd : json) (results : list json) :
  analyze_image chat json_loads format_value contents lb ld rb rd = Done results ->
  length results = length output_ids.
Proof. intros H. by rewrite (analyze_image_length _ _ _ _ _ _ _ _ _ H). Qed.

Lemma X20_witness :
  length (match analyze_image failing_chat failing_decoder text_of upload
                  JNull JNull JNull JNull with
          | Done results => results
          | Fail _ => []
          end)
  = length output_ids.
Proof.
  apply (X20_one_value_per_output failing_chat failing_decoder text_of upload
           JNull JNull JNull JNull).
  by vm_compute.
Defined.

(** X21.  When [analyze_image] returns on an upload, the value it gives
    to each widget is the one of the outcome of [process_gpt_response]:
    the statuses, [mle] and [ze] of the eye of the widget, the briding
    and the decollement given by the caller (as given: [None] is not
    replaced), the details of the oedeme and the text of the
    thicknesses. *)
Theorem X21_values_reach_their_widgets
    (chat : list N -> list N + option (list N))
    (json_loads : list N -> list N + json) (format_value : json -> list N)
    (contents lb ld rb rd : json) (results : list json) :
  py_truthy contents = true ->
  analyze_image chat json_loads format_value contents lb ld rb rd = Done results ->
  exists image_base64 analysis,
    encode_contents contents = Done image_base64
    /\ process_gpt_response (analyze_with_gpt chat json_loads image_base64)
       = Ok analysis
    /\ combine output_ids (map Some results)
       = form_values format_value analysis lb ld rb rd.
Proof. apply analyze_image_form. Qed.

Lemma X21_witness :
  exists image_base64 analysis,
    encode_contents upload = Done image_base64
    /\ process_gpt_response
         (analyze_with_gpt answering_chat (decoder_of full_oedeme) image_base64)
       = Ok analysis
    /\ combine output_ids
         (map Some
            (match analyze_image answering_chat (decoder_of full_oedeme) text_of
                     upload JNull (JStr (py "Présent")) JNull JNull with
             | Done results => results
             | Fail _ => []
             end))
       = form_values text_of analysis JNull (JStr (py "Présent")) JNull JNull.
Proof.
  apply (X21_values_reach_their_widgets answering_chat (decoder_of full_oedeme)
           text_of upload JNull (JStr (py "Présent")) JNull JNull).
  - reflexivity.
  - by vm_compute.
Defined.

(** X22.  In the values [analyze_image] returns on an upload, when the
    status of the oedeme of a side is one for which
    [toggle_oedeme_details] hides the details, the three details of that
    side are the empty string. *)
Theorem X22_hidden_details_are_blank
    (chat : list N -> list N + option (list N))
    (json_loads : list N -> list N + json) (format_value : json -> list N)
    (contents lb ld rb rd : json) (results : list json)
    (side : nat) (status : json) :
  py_truthy contents = true ->
  analyze_image chat json_loads format_value contents lb ld rb rd = Done results ->
  side < 2 ->
  results !! (1 + 7 * side) = Some status ->
  toggle_oedeme_details status = dict [(py "display", JStr (py "none"))] ->
  results !! (14 + side) = Some (JStr (py ""))
  /\ results !! (16 + side) = Some (JStr (py ""))
  /\ results !! (18 + side) = Some (JStr (py "")).
Proof.
  intros Ht H Hside Hstatus Htoggle.
  destruct (analyze_image_values _ _ _ _ _ _ _ _ _ Ht H)
    as (img & a & _ & _ & Hmap).
  apply toggle_none in Htoggle.
  assert (forall i v, results !! i = Some v <->
                      map snd (form_values format_value a lb ld rb rd) !! i
                      = Some (Some v)) as Hat.
  { intros i v. rewrite <- Hmap, list_lookup_fmap.
    destruct (results !! i); cbn; split; congruence. }
  assert (side = 0 \/ side = 1) as [-> | ->] by lia.
  - apply Hat in Hstatus. cbn in Hstatus. injection Hstatus as Hstatus.
    rewrite !Hat. cbn. unfold detail_of. rewrite Hstatus. cbn.
    by rewrite Htoggle.
  - apply Hat in Hstatus. cbn in Hstatus. injection Hstatus as Hstatus.
    rewrite !Hat. cbn. unfold detail_of. rewrite Hstatus. cbn.
    by rewrite Htoggle.
Qed.

Lemma X22_witness :
  (match analyze_image failing_chat failing_decoder text_of upload
           JNull JNull JNull JNull with
   | Done results => results
   | Fail _ => []
   end) !! (14 + 1) = Some (JStr (py ""))
  /\ (match analyze_image failing_chat failing_decoder text_of upload
              JNull JNull JNull JNull with
      | Done results => results
      | Fail _ => []
      end) !! (16 + 1) = Some (JStr (py ""))
  /\ (match analyze_image failing_chat failing_decoder text_of upload
              JNull JNull JNull JNull with
      | Done results => results
      | Fail _ => []
      end) !! (18 + 1) = Some (JStr (py "")).
Proof.
  apply (X22_hidden_details_are_blank failing_chat failing_decoder text_of
           upload JNull JNull JNull JNull _ 1 (JStr (py "Absent"))).
  - reflexivity.
  - by vm_compute.
  - lia.
  - by vm_compute.
  - by vm_compute.
Defined.



(** X24.  When the outcome of [process_gpt_response] holds a left oedeme
    whose status is "Présent" and that has no [nb_logette] (the other
    statuses of the two eyes being there), [analyze_image] raises
    [KeyError]: the details of a present oedeme are read without a
    default. *)
Theorem X24_present_oedeme_without_details
    (chat : list N -> list N + option (list N))
    (json_loads : list N -> list N + json) (format_value : json -> list N)
    (contents lb ld rb rd : json) (image_base64 : list N)
    (analysis : json) (d : gmap (list N) json) :
  py_truthy contents = true ->
  encode_contents contents = Done image_base64 ->
  process_gpt_response (analyze_with_gpt chat json_loads image_base64)
  = Ok analysis ->
  is_Some (field3 analysis (py "left_eye") (py "dril") (py "status")) ->
  is_Some (field3 analysis (py "left_eye") (py "points_hyperreflectifs")
             (py "status")) ->
  is_Some (field3 analysis (py "right_eye") (py "dril") (py "status")) ->
  is_Some (field3 analysis (py "right_eye") (py "oedeme") (py "status")) ->
  is_Some (field3 analysis (py "right_eye") (py "points_hyperreflectifs")
             (py "status")) ->
  field2 analysis (py "left_eye") (py "oedeme") = Some (JObj d) ->
  d !! py "status" = Some (JStr (py "Présent")) ->
  d !! py "nb_logette" = None ->
  analyze_image chat json_loads format_value contents lb ld rb rd
  = Fail (PyExn KeyError).
Proof. apply analyze_image_missing_detail. Qed.

Lemma X24_witness :
  analyze_image answering_chat (decoder_of bare_oedeme) text_of upload
    JNull JNull JNull JNull
  = Fail (PyExn KeyError).
Proof.
  apply (X24_present_oedeme_without_details
           answering_chat (decoder_of bare_oedeme) text_of upload
           JNull JNull JNull JNull (py "iVBORw0KGgo=")
           (match process_gpt_response bare_oedeme with
            | Ok a => a
            | Raise _ => JNull
            end)
           (list_to_map [(py "status", JStr (py "Présent"))])).
  - reflexivity.
  - by vm_compute.
  - by vm_compute.
  - vm_compute. eauto.
  - vm_compute. eauto.
  - vm_compute. eauto.
  - vm_compute. eauto.
  - vm_compute. eauto.
  - by vm_compute.
  - by vm_compute.
  - by vm_compute.
Defined.



End AppProperties.
